(** * Dimensionally: the procedural mesh synthesizer and the binary container encoder

    A shallow embedding of [src/lib/image-to-3d-service.ts] and of the part of
    [src/lib/model-format-converter.ts] it calls, with the properties the
    specification states about them.

    Conventions of the embedding.
    - A JavaScript number used in floating point arithmetic is a binary64
      [float]; loop counters, lengths and indices, which stay small exact
      integers in the source, are [nat].
    - A [Uint8Array] is a [list byte].  A [Float32Array] is the list of its
      elements: a number stored into it is rounded to binary32 ([fround]), and
      [Float32Array_bytes] gives the bytes of the elements.
    - A call that can raise a [RangeError] ([Uint8Array.prototype.set],
      [DataView.prototype.setUint32]) returns an [option].
    - [Math.sin], [Math.cos], the image decoder, [String.prototype.toUpperCase]
      and the three.js exporters belong to the host; they are variables of the
      sections that use them. *)

From Stdlib.Strings Require Import String Ascii Byte.
From Stdlib Require Import DecimalString.
From Stdlib Require Import ZArith Floats Bool Arith Lia List.
Import ListNotations.

Set Warnings "-inexact-float,-register-all,-abstract-large-number".

Local Open Scope string_scope.
Local Open Scope list_scope.
Local Open Scope nat_scope.

(** ** Bytes and little-endian words *)

Module Bytes.

Definition byte_of_Z (z : Z) : byte :=
  match Byte.of_N (Z.to_N (z mod 256)) with
  | Some b => b
  | None => x00
  end.

(** The four bytes [DataView.setUint32(_, v, true)] writes, which are also
    the bytes of one element of a [Uint32Array] on a little-endian host. *)
Definition le32 (v : Z) : list byte :=
  [ byte_of_Z v; byte_of_Z (Z.shiftr v 8);
    byte_of_Z (Z.shiftr v 16); byte_of_Z (Z.shiftr v 24) ].

(** The two bytes of one element of a [Uint16Array]. *)
Definition le16 (v : Z) : list byte :=
  [ byte_of_Z v; byte_of_Z (Z.shiftr v 8) ].

(** Conversion of a number to binary32, round to nearest even, and the bit
    pattern of the result (the canonical quiet NaN for NaN). *)
Definition to_binary32 (x : float) : spec_float :=
  match Prim2SF x with
  | S754_finite s m e => binary_round 24 128 s m e
  | r => r
  end.

Definition binary32_bits (r : spec_float) : Z :=
  let sign (s : bool) := if s then 0x80000000%Z else 0%Z in
  match r with
  | S754_zero s => sign s
  | S754_infinity s => (sign s + 0x7F800000)%Z
  | S754_nan => 0x7FC00000%Z
  | S754_finite s m e =>
      if (Z.pos m <? 0x800000)%Z then (sign s + Z.pos m)%Z
      else (sign s + Z.shiftl (e + 150) 23 + (Z.pos m - 0x800000))%Z
  end.

(** [Math.fround]: the binary32 value nearest to a number, as a number.  It
    is what a [Float32Array] keeps of a number stored into it. *)
Definition fround (x : float) : float := SF2Prim (to_binary32 x).

(** The four bytes of one element of a [Float32Array]; on an element, which
    is a binary32 value already, the conversion is exact. *)
Definition f32le (x : float) : list byte := le32 (binary32_bits (to_binary32 x)).

(** [slice bytes off len]: the bytes a buffer view [(off, len)] denotes. *)
Definition slice {A} (l : list A) (off len : nat) : list A :=
  firstn len (skipn off l).

(** [new Uint8Array(n)] and [new ArrayBuffer(n)]: [n] zero bytes. *)
Definition zeros (n : nat) : list byte := repeat x00 n.

(** [dst.set(src, off)]: copies [src] into [dst] at [off]; a [RangeError]
    when [src] does not fit. *)
Definition set_bytes (dst src : list byte) (off : nat) : option (list byte) :=
  if off + length src <=? length dst
  then Some (firstn off dst ++ src ++ skipn (off + length src) dst)
  else None.

(** [view.setUint32(off, v, true)] on a [DataView] over [buf]. *)
Definition setUint32 (buf : list byte) (off : nat) (v : Z) : option (list byte) :=
  set_bytes buf (le32 v) off.

(** [arr[i] = v] on a typed array: an index past the end is ignored. *)
Definition set_index {A} (arr : list A) (i : nat) (v : A) : list A :=
  if i <? length arr then firstn i arr ++ v :: skipn (S i) arr else arr.

(** [new Float32Array(numbers)]. *)
Definition Float32Array_from (numbers : list float) : list float := map fround numbers.

(** [arr[i] = v] on a [Float32Array]. *)
Definition Float32Array_set (arr : list float) (i : nat) (v : float) : list float :=
  set_index arr i (fround v).

Definition Float32Array_bytes (a : list float) : list byte := flat_map f32le a.
Definition Uint32Array_bytes (a : list nat) : list byte :=
  flat_map (fun k => le32 (Z.of_nat k)) a.
Definition Uint16Array_bytes (a : list nat) : list byte :=
  flat_map (fun k => le16 (Z.of_nat k)) a.

(** [new TextEncoder().encode(s)] for the ASCII text the program serializes. *)
Definition encode (s : string) : list byte := list_byte_of_string s.

End Bytes.
Import Bytes.

(** ** Loops and numbers *)

(** [for (let i = lo; i < hi; i++) body]: the loop state is threaded through
    the iterations. *)
Definition for_ {State : Type} (lo hi : nat) (body : nat -> State -> State)
    (s : State) : State :=
  fold_left (fun st i => body i st) (seq lo (hi - lo)) s.

(** [arr.push(x1, ..., xn)]. *)
Definition push {A : Type} (arr : list A) (xs : list A) : list A := arr ++ xs.

(** The number denoted by a loop counter. *)
Definition number (n : nat) : float := PrimFloat.of_uint63 (Uint63.of_Z (Z.of_nat n)).

Definition Math_PI : float := 3.141592653589793%float.

(** ** GeometryGenerator and AttributeColorizer *)

Record Mesh : Type := {
  vertices : list float;  (* Float32Array *)
  indices : list nat;     (* Uint32Array *)
  normals : list float    (* Float32Array *)
}.

Section Geometry.

(** [Math.sin] and [Math.cos], which ECMAScript leaves to the host. *)
Variables Math_sin Math_cos : float -> float.

Definition radius : float := 1%float.

(** First loop nest of [generateUVSphere]: the state is the pair of the
    [vertices] and [normals] arrays. *)
Definition sphere_vertex_loop (rings sectors : nat)
  : list float * list float -> list float * list float :=
  for_ 0 (S rings) (fun i =>
    let ringAngle := ((Math_PI * number i) / number rings)%float in
    let xy := (radius * Math_sin ringAngle)%float in
    let z := (radius * Math_cos ringAngle)%float in
    for_ 0 (S sectors) (fun j '(vs, ns) =>
      let sectorAngle := ((2 * Math_PI * number j) / number sectors)%float in
      let x := (xy * Math_cos sectorAngle)%float in
      let y := (xy * Math_sin sectorAngle)%float in
      (push vs [x; y; z],
       push ns [(x / radius)%float; (y / radius)%float; (z / radius)%float]))).

(** Second loop nest: the inner loop advances [k1] and [k2] with [j]. *)
Definition sphere_index_loop (rings sectors : nat) : list nat -> list nat :=
  for_ 0 rings (fun i inds =>
    let k1 := i * (sectors + 1) in
    let k2 := k1 + sectors + 1 in
    let '(inds', _, _) :=
      for_ 0 sectors (fun _ '(inds, k1, k2) =>
        let inds := if negb (i =? 0) then push inds [k1; k2; k1 + 1] else inds in
        let inds := if negb (Z.of_nat i =? Z.of_nat rings - 1)%Z
                    then push inds [k1 + 1; k2; k2 + 1] else inds in
        (inds, k1 + 1, k2 + 1)) (inds, k1, k2) in
    inds').

Definition generateUVSphere (subdivisions : nat) : Mesh :=
  let rings := subdivisions in
  let sectors := subdivisions * 2 in
  let '(vs, ns) := sphere_vertex_loop rings sectors ([], []) in
  let inds := sphere_index_loop rings sectors [] in
  {| vertices := Float32Array_from vs;
     indices := inds;
     normals := Float32Array_from ns |}.

End Geometry.

(** [imageColors[i % imageColors.length] || [0.8, 0.8, 0.8]]: with an empty
    list the index is NaN and the lookup is [undefined]. *)
Definition color_at (imageColors : list (list float)) (i : nat) : list float :=
  let sampled :=
    if length imageColors =? 0 then None
    else nth_error imageColors (i mod length imageColors) in
  match sampled with
  | Some c => c
  | None => [0.8; 0.8; 0.8]%float
  end.

(** [const [r, g, b] = c]: a missing component is [undefined], which is NaN
    as a number. *)
Definition component (c : list float) (k : nat) : float := nth k c nan.

Definition generateVertexColors (vertexCount : nat) (imageColors : list (list float))
  : list float :=
  let colors := repeat 0%float (vertexCount * 4) in
  for_ 0 vertexCount (fun i colors =>
    let c := color_at imageColors i in
    let colors := Float32Array_set colors (i * 4) (component c 0) in
    let colors := Float32Array_set colors (i * 4 + 1) (component c 1) in
    let colors := Float32Array_set colors (i * 4 + 2) (component c 2) in
    Float32Array_set colors (i * 4 + 3) 1%float) colors.

(** ** SceneDescriptionBuilder: the scene description and its JSON text *)

Module Json.

Inductive json : Type :=
| JInt (z : Z)            (* an integral number *)
| JNum (text : string)    (* a non-integral literal, printed as written *)
| JString (s : string)
| JArray (items : list json)
| JObject (members : list (string * json)).

Definition dquote : string := String (ascii_of_nat 34) EmptyString.

(** The keys and strings of the scene description hold no character that
    [JSON.stringify] escapes. *)
Definition quote (s : string) : string := (dquote ++ s ++ dquote)%string.

Definition string_of_Z (z : Z) : string := NilZero.string_of_int (Z.to_int z).

Fixpoint join (sep : string) (l : list string) : string :=
  match l with
  | [] => EmptyString
  | [x] => x
  | x :: rest => (x ++ sep ++ join sep rest)%string
  end.

(** [JSON.stringify(v)] without indentation. *)
Fixpoint stringify (v : json) : string :=
  match v with
  | JInt z => string_of_Z z
  | JNum text => text
  | JString s => quote s
  | JArray items => ("[" ++ join "," (map stringify items) ++ "]")%string
  | JObject members =>
      ("{" ++ join "," (map (fun kv => quote (fst kv) ++ ":" ++ stringify (snd kv)) members)
           ++ "}")%string
  end.

End Json.
Import Json.

(** Component type codes and buffer targets of the scene description. *)
Definition FLOAT : Z := 5126.
Definition UNSIGNED_INT : Z := 5125.
Definition UNSIGNED_SHORT : Z := 5123.
Definition ARRAY_BUFFER : Z := 34962.
Definition ELEMENT_ARRAY_BUFFER : Z := 34963.

Record Accessor : Type := {
  bufferView : nat;
  componentType : Z;
  count : nat;
  type : string;
  min_max : option (list Z * list Z)
}.

Record BufferView : Type := {
  buffer : nat;
  byteOffset : nat;
  byteLength : nat;
  target : Z
}.

Record Material : Type := {
  baseColorFactor : list json;
  metallicFactor : json;
  roughnessFactor : json
}.

(** The object literal [glTF] of both producers; the fields that are the same
    constant in both ([scene], [scenes], [nodes], the asset version, the
    material name and index) are written out in [glTF_json]. *)
Record GlTF : Type := {
  generator : string;
  attributes : list (string * nat);
  primitive_indices : nat;
  material : Material;
  accessors : list Accessor;
  bufferViews : list BufferView;
  buffers_byteLength : nat
}.

Definition JNat (n : nat) : json := JInt (Z.of_nat n).

Definition accessor_json (a : Accessor) : json :=
  JObject
    ([ ("bufferView", JNat (bufferView a));
       ("componentType", JInt (componentType a));
       ("count", JNat (count a));
       ("type", JString (type a)) ]
     ++ match min_max a with
        | Some (lo, hi) => [ ("min", JArray (map JInt lo)); ("max", JArray (map JInt hi)) ]
        | None => []
        end).

Definition bufferView_json (v : BufferView) : json :=
  JObject
    [ ("buffer", JNat (buffer v));
      ("byteOffset", JNat (byteOffset v));
      ("byteLength", JNat (byteLength v));
      ("target", JInt (target v)) ].

Definition glTF_json (g : GlTF) : json :=
  JObject
    [ ("asset", JObject [ ("version", JString "2.0"); ("generator", JString (generator g)) ]);
      ("scene", JInt 0);
      ("scenes", JArray [ JObject [ ("nodes", JArray [ JInt 0 ]) ] ]);
      ("nodes", JArray [ JObject [ ("mesh", JInt 0) ] ]);
      ("meshes",
        JArray [ JObject [ ("primitives",
          JArray [ JObject
            [ ("attributes", JObject (map (fun kv => (fst kv, JNat (snd kv))) (attributes g)));
              ("indices", JNat (primitive_indices g));
              ("material", JInt 0) ] ]) ] ]);
      ("materials",
        JArray [ JObject
          [ ("name", JString "Material");
            ("pbrMetallicRoughness", JObject
              [ ("baseColorFactor", JArray (baseColorFactor (material g)));
                ("metallicFactor", metallicFactor (material g));
                ("roughnessFactor", roughnessFactor (material g)) ]) ] ]);
      ("accessors", JArray (map accessor_json (accessors g)));
      ("bufferViews", JArray (map bufferView_json (bufferViews g)));
      ("buffers", JArray [ JObject [ ("byteLength", JNat (buffers_byteLength g)) ] ]) ].

(** ** ContainerAssembler *)

Notation "x <- a ;; b" :=
  (match a with Some x => b | None => None end)
  (at level 61, a at next level, right associativity).

Definition GLB_MAGIC : Z := 0x46546c47.   (* "glTF" *)
Definition CHUNK_JSON : Z := 0x4e4f534a.  (* "JSON" *)
Definition CHUNK_BIN : Z := 0x004e4942.   (* "BIN\0" *)

(** [(4 - (n % 4)) % 4]. *)
Definition paddingNeeded (n : nat) : nat := (4 - n mod 4) mod 4.

(** The statements both producers run once the scene description and the
    packed buffer exist: from "Serialize JSON" to the returned buffer.  The two
    source functions repeat them word for word. *)
Definition assemble (glTF : GlTF) (binData : list byte) : option (list byte) :=
  (* Serialize JSON *)
  let jsonStr := stringify (glTF_json glTF) in
  let jsonBuf := encode jsonStr in
  (* Pad JSON to 4-byte boundary *)
  let jsonPaddingNeeded := paddingNeeded (length jsonBuf) in
  jsonChunk <- set_bytes (zeros (length jsonBuf + jsonPaddingNeeded)) jsonBuf 0 ;;
  let jsonChunk :=
    for_ 0 jsonPaddingNeeded (fun i c => set_index c (length jsonBuf + i) x20) jsonChunk in
  (* Pad binary to 4-byte boundary *)
  let binPaddingNeeded := paddingNeeded (length binData) in
  binChunk <- set_bytes (zeros (length binData + binPaddingNeeded)) binData 0 ;;
  let binChunk :=
    for_ 0 binPaddingNeeded (fun i c => set_index c (length binData + i) x00) binChunk in
  (* Build GLB header *)
  let header := zeros 20 in
  header <- setUint32 header 0 GLB_MAGIC ;;
  header <- setUint32 header 4 2 ;;
  let fileLength := 20 + 8 + length jsonChunk + 8 + length binChunk in
  header <- setUint32 header 8 (Z.of_nat fileLength) ;;
  (* JSON chunk header *)
  let jsonChunkHeader := zeros 8 in
  jsonChunkHeader <- setUint32 jsonChunkHeader 0 (Z.of_nat (length jsonChunk)) ;;
  jsonChunkHeader <- setUint32 jsonChunkHeader 4 CHUNK_JSON ;;
  (* BIN chunk header *)
  let binChunkHeader := zeros 8 in
  binChunkHeader <- setUint32 binChunkHeader 0 (Z.of_nat (length binChunk)) ;;
  binChunkHeader <- setUint32 binChunkHeader 4 CHUNK_BIN ;;
  (* Combine all parts *)
  let headerBytes := header in
  let jsonHeaderBytes := jsonChunkHeader in
  let binHeaderBytes := binChunkHeader in
  let totalLength :=
    length headerBytes + length jsonHeaderBytes + length jsonChunk
    + length binHeaderBytes + length binChunk in
  let glbFile := zeros totalLength in
  let pos := 0 in
  glbFile <- set_bytes glbFile headerBytes pos ;;
  let pos := pos + length headerBytes in
  glbFile <- set_bytes glbFile jsonHeaderBytes pos ;;
  let pos := pos + length jsonHeaderBytes in
  glbFile <- set_bytes glbFile jsonChunk pos ;;
  let pos := pos + length jsonChunk in
  glbFile <- set_bytes glbFile binHeaderBytes pos ;;
  let pos := pos + length binHeaderBytes in
  glbFile <- set_bytes glbFile binChunk pos ;;
  Some glbFile.

(** ** The sphere producer: [createPhotogrammetryModel] *)

Module PhotogrammetryModel.
Section Locals.

Variables Math_sin Math_cos : float -> float.
Variable colors : list (list float).
Variable imageCount : nat.

(** [Math.min(8, 2 + Math.floor(imageCount / 5))]. *)
Definition subdivisions : nat := Nat.min 8 (2 + imageCount / 5).

Definition mesh : Mesh := generateUVSphere Math_sin Math_cos subdivisions.

(** [generateVertexColors(vertices.length, colors)]: the argument is the
    length of the [vertices] array. *)
Definition vertexColors : list float :=
  generateVertexColors (length (vertices mesh)) colors.

(* Combine binary data *)
Definition vertexBin : list byte := Float32Array_bytes (vertices mesh).
Definition indicesBin : list byte := Uint32Array_bytes (indices mesh).
Definition normalsBin : list byte := Float32Array_bytes (normals mesh).
Definition colorBin : list byte := Float32Array_bytes vertexColors.

Definition binData : option (list byte) :=
  let binDataLength :=
    length vertexBin + length indicesBin + length normalsBin + length colorBin in
  let binData := zeros binDataLength in
  let offset := 0 in
  binData <- set_bytes binData vertexBin offset ;;
  let offset := offset + length vertexBin in
  binData <- set_bytes binData indicesBin offset ;;
  let offset := offset + length indicesBin in
  binData <- set_bytes binData normalsBin offset ;;
  let offset := offset + length normalsBin in
  binData <- set_bytes binData colorBin offset ;;
  Some binData.

(** The [count] fields are written [vertices.length / 3] and the like; the
    lengths are multiples of the divisor ([vertices_length],
    [generateVertexColors_length]), so the quotient is the integer that
    [JSON.stringify] prints. *)
Definition glTF (binData : list byte) : GlTF := {|
  generator := "Dimensionally Photogrammetry";
  attributes := [ ("POSITION", 0); ("NORMAL", 1); ("COLOR_0", 2) ];
  primitive_indices := 3;
  material := {| baseColorFactor := [ JInt 1; JInt 1; JInt 1; JInt 1 ];
                 metallicFactor := JNum "0.3";
                 roughnessFactor := JNum "0.7" |};
  accessors :=
    [ {| bufferView := 0; componentType := FLOAT;
         count := length (vertices mesh) / 3; type := "VEC3";
         min_max := Some ([-1; -1; -1]%Z, [1; 1; 1]%Z) |};
      {| bufferView := 1; componentType := FLOAT;
         count := length (normals mesh) / 3; type := "VEC3";
         min_max := None |};
      {| bufferView := 2; componentType := FLOAT;
         count := length vertexColors / 4; type := "VEC4";
         min_max := None |};
      {| bufferView := 3; componentType := UNSIGNED_INT;
         count := length (indices mesh); type := "SCALAR";
         min_max := None |} ];
  bufferViews :=
    [ {| buffer := 0; byteOffset := 0;
         byteLength := length vertexBin; target := ARRAY_BUFFER |};
      {| buffer := 0; byteOffset := length vertexBin;
         byteLength := length normalsBin; target := ARRAY_BUFFER |};
      {| buffer := 0; byteOffset := length vertexBin + length normalsBin;
         byteLength := length colorBin; target := ARRAY_BUFFER |};
      {| buffer := 0;
         byteOffset := length vertexBin + length normalsBin + length colorBin;
         byteLength := length indicesBin; target := ELEMENT_ARRAY_BUFFER |} ];
  buffers_byteLength := length binData
|}.

End Locals.
End PhotogrammetryModel.

Definition createPhotogrammetryModel (Math_sin Math_cos : float -> float)
    (colors : list (list float)) (imageCount : nat) : option (list byte) :=
  binData <- PhotogrammetryModel.binData Math_sin Math_cos colors imageCount ;;
  assemble (PhotogrammetryModel.glTF Math_sin Math_cos colors imageCount binData) binData.

(** ** The cube producer: [createCubeGLB] *)

Module CubeGLB.

(* Cube vertices (8 points) *)
Definition vertices : list float :=
  [ -1; -1; -1;
    1; -1; -1;
    1; 1; -1;
    -1; 1; -1;
    -1; -1; 1;
    1; -1; 1;
    1; 1; 1;
    -1; 1; 1 ]%float.

(* Cube face indices, a Uint16Array *)
Definition indices : list nat :=
  [ 0; 1; 2; 2; 3; 0;
    5; 4; 7; 7; 6; 5;
    4; 5; 1; 1; 0; 4;
    3; 2; 6; 6; 7; 3;
    4; 0; 3; 3; 7; 4;
    1; 5; 6; 6; 2; 1 ].

(* Vertex normals, line for line as in the source *)
Definition normals : list float :=
  [ 0; 0; -1; 0; 0; -1; 0; 0; -1; 0; 0; -1; 0; 0; 1; 0; 0; 1; 0; 0; 1; 0; 0;
    1; 0; -1; 0; 0; -1; 0; 0; -1; 0; 0; -1; 0; 0; 1; 0; 0; 1; 0; 0; 1; 0; 0;
    1; 0; -1; 0; 0; -1; 0; 0; -1; 0; 0; -1; 0; 1; 0; 1; 0; 1; 0; 1; 0; 1; 0;
    1; 0 ]%float.

Definition vertexBin : list byte := Float32Array_bytes vertices.
Definition indicesBin : list byte := Uint16Array_bytes indices.
Definition normalsBin : list byte := Float32Array_bytes normals.

Definition binData : option (list byte) :=
  let binDataLength := length vertexBin + length indicesBin + length normalsBin in
  let binData := zeros binDataLength in
  binData <- set_bytes binData vertexBin 0 ;;
  binData <- set_bytes binData indicesBin (length vertexBin) ;;
  binData <- set_bytes binData normalsBin (length vertexBin + length indicesBin) ;;
  Some binData.

Definition glTF (binData : list byte) : GlTF := {|
  generator := "Dimensionally";
  attributes := [ ("POSITION", 0); ("NORMAL", 2) ];
  primitive_indices := 1;
  material := {| baseColorFactor := [ JNum "0.8"; JNum "0.8"; JNum "0.8"; JInt 1 ];
                 metallicFactor := JNum "0.5";
                 roughnessFactor := JNum "0.5" |};
  accessors :=
    [ {| bufferView := 0; componentType := FLOAT;
         count := 8; type := "VEC3";
         min_max := Some ([-1; -1; -1]%Z, [1; 1; 1]%Z) |};
      {| bufferView := 1; componentType := UNSIGNED_INT;
         count := 36; type := "SCALAR";
         min_max := None |};
      {| bufferView := 2; componentType := FLOAT;
         count := 24; type := "VEC3";
         min_max := None |} ];
  bufferViews :=
    [ {| buffer := 0; byteOffset := 0;
         byteLength := length vertexBin; target := ARRAY_BUFFER |};
      {| buffer := 0; byteOffset := length vertexBin;
         byteLength := length indicesBin; target := ELEMENT_ARRAY_BUFFER |};
      {| buffer := 0; byteOffset := length vertexBin + length indicesBin;
         byteLength := length normalsBin; target := ARRAY_BUFFER |} ];
  buffers_byteLength := length binData
|}.

End CubeGLB.

Definition createCubeGLB : option (list byte) :=
  binData <- CubeGLB.binData ;;
  assemble (CubeGLB.glTF binData) binData.

(** ** The conversion entry point and its collaborators *)

(** A thrown value: an [Error] with its message, or anything else. *)
Inductive exn : Type :=
| Error (message : string)
| Thrown_value.

(** [error instanceof Error ? error.message : "Unknown error"]. *)
Definition message_of (error : exn) : string :=
  match error with
  | Error message => message
  | Thrown_value => "Unknown error"
  end.

Inductive ModelFormat : Type := GLB | GLTF | OBJ | STL | FBX | USDZ | DAE.

Definition format_name (f : ModelFormat) : string :=
  match f with
  | GLB => "GLB" | GLTF => "GLTF" | OBJ => "OBJ" | STL => "STL"
  | FBX => "FBX" | USDZ => "USDZ" | DAE => "DAE"
  end.

Definition supportedFormats : list ModelFormat := [GLB; GLTF; OBJ; STL; FBX; USDZ; DAE].

(** [supportedFormats.includes(s)], with the format found. *)
Definition includes (s : string) : option ModelFormat :=
  find (fun f => String.eqb (format_name f) s) supportedFormats.

Record Blob : Type := { blob_bytes : list byte; blob_type : string }.

Record File : Type := { file_name : string; file_type : string; file_bytes : list byte }.

(** What the body of the loop of [extractImageColors] gets from the browser
    for one file: the pixel of the 1x1 canvas, no 2d context, or an exception
    on the way. *)
Inductive Sample : Type :=
| Pixel (r g b : nat)
| No_context
| Rejected.

Section Service.

Variables Math_sin Math_cos : float -> float.
Variable toUpperCase : string -> string.
Variable sample : File -> Sample.

(** three.js: the scene type, the constructors run by [createCubeScene], and
    the exporters behind [exportAsGLB] ... [exportAsDAE]. *)
Variable Scene : Type.
Variable createCubeScene : exn + Scene.
Variables exportAsGLB exportAsGLTF exportAsOBJ exportAsSTL exportAsDAE : Scene -> exn + Blob.

(** The state the progress callback acts on. *)
Variable World : Type.

(** The options object: [onProgress] may be absent; when present it is a
    function of the caller, which acts on the world and returns or throws. *)
Record Image2D3DOptions : Type := {
  onProgress : option (nat -> World -> World * (exn + unit))
}.

(** An asynchronous computation, run to completion: it transforms the world
    and ends with a value or a thrown value. *)
Definition M (A : Type) : Type := World -> World * (exn + A).

Definition ret {A} (a : A) : M A := fun w => (w, inr a).
Definition throw {A} (e : exn) : M A := fun w => (w, inl e).
Definition bind {A B} (m : M A) (k : A -> M B) : M B :=
  fun w => match m w with
           | (w', inr a) => k a w'
           | (w', inl e) => (w', inl e)
           end.
Definition try_catch {A} (body : M A) (handler : exn -> M A) : M A :=
  fun w => match body w with
           | (w', inr a) => (w', inr a)
           | (w', inl e) => handler e w'
           end.
Definition lift {A} (r : exn + A) : M A := fun w => (w, r).

(** A [RangeError] out of a typed array operation. *)
Definition lift_option {A} (o : option A) : M A :=
  match o with
  | Some a => ret a
  | None => throw (Error "offset is out of bounds")
  end.

Notation "x <-- m ;;; k" := (bind m (fun x => k))
  (at level 61, m at next level, right associativity).
Notation "m ;;; k" := (bind m (fun _ => k))
  (at level 61, right associativity).

(** [options.onProgress?.(p)]: what the callback throws is thrown by the
    call. *)
Definition notify (options : Image2D3DOptions) (p : nat) : M unit :=
  match onProgress options with
  | Some callback => callback p
  | None => ret tt
  end.

(** [exportScene]; the [default] branch of the switch needs a value outside
    [ModelFormat]. *)
Definition exportScene (scene : Scene) (format : ModelFormat) : M Blob :=
  match format with
  | GLB => lift (exportAsGLB scene)
  | GLTF => lift (exportAsGLTF scene)
  | OBJ => lift (exportAsOBJ scene)
  | STL => lift (exportAsSTL scene)
  | DAE => lift (exportAsDAE scene)
  | FBX | USDZ => lift (exportAsGLB scene)
  end.

Definition exportSceneToFormat (format : ModelFormat) (options : Image2D3DOptions)
  : M Blob :=
  try_catch
    (scene <-- lift createCubeScene ;;;
     notify options 50 ;;;
     blob <-- exportScene scene format ;;;
     ret blob)
    (fun error =>
       throw (Error ("Export to " ++ format_name format ++ " failed: "
                       ++ message_of error)%string)).

Definition extractImageColors (files : list File) : M (list (list float)) :=
  ret (fold_left
         (fun colors file =>
            match sample file with
            | Pixel r g b =>
                push colors [[ (number r / 255)%float; (number g / 255)%float;
                               (number b / 255)%float ]]
            | No_context => colors
            | Rejected => push colors [[0.8; 0.8; 0.8]%float]
            end)
         files []).

Definition generateModelFromPhotogrammetry (files : list File) (format : ModelFormat)
    (options : Image2D3DOptions) : M Blob :=
  notify options 50 ;;;
  colors <-- extractImageColors files ;;;
  notify options 70 ;;;
  glbArrayBuffer <--
    lift_option (createPhotogrammetryModel Math_sin Math_cos colors (length files)) ;;;
  notify options 85 ;;;
  blob <-- exportSceneToFormat format options ;;;
  notify options 100 ;;;
  ret blob.

(** The [try] block ends by returning the promise of
    [generateModelFromPhotogrammetry] without awaiting it, so the [catch]
    clause sees what is thrown before that call and nothing of what the call
    rejects with: the block yields the pending computation, which runs after
    it. *)
Definition convertPhotogrammetry (files : list File) (outputFormat : string)
    (options : Image2D3DOptions) : M Blob :=
  notify options 10 ;;;
  pending <--
    try_catch
      ((if length files <? 8
        then throw (Error "Please provide at least 8 images for photogrammetry")
        else ret tt) ;;;
       (if negb (forallb (fun file => prefix "image/" (file_type file)) files)
        then throw (Error "All files must be valid image files")
        else ret tt) ;;;
       notify options 20 ;;;
       let normalizedFormat := toUpperCase outputFormat in
       match includes normalizedFormat with
       | None => ret (generateModelFromPhotogrammetry files GLB options)
       | Some format =>
           notify options 40 ;;;
           ret (generateModelFromPhotogrammetry files format options)
       end)
      (fun error =>
         throw (Error ("Photogrammetry conversion failed: " ++ message_of error)%string)) ;;;
  pending.

End Service.

(** ** The layout of a container, in closed form

    The parts [assemble] computes, named after its local variables, and their
    concatenation; [assemble_eq] shows that this is what [assemble] returns. *)

Module Layout.

Definition jsonBuf (g : GlTF) : list byte := encode (stringify (glTF_json g)).

Definition jsonChunk (g : GlTF) : list byte :=
  jsonBuf g ++ repeat x20 (paddingNeeded (length (jsonBuf g))).

Definition binChunk (binData : list byte) : list byte :=
  binData ++ repeat x00 (paddingNeeded (length binData)).

Definition fileLength (g : GlTF) (binData : list byte) : nat :=
  20 + 8 + length (jsonChunk g) + 8 + length (binChunk binData).

Definition header (g : GlTF) (binData : list byte) : list byte :=
  le32 GLB_MAGIC ++ le32 2 ++ le32 (Z.of_nat (fileLength g binData)) ++ zeros 8.

Definition jsonChunkHeader (g : GlTF) : list byte :=
  le32 (Z.of_nat (length (jsonChunk g))) ++ le32 CHUNK_JSON.

Definition binChunkHeader (binData : list byte) : list byte :=
  le32 (Z.of_nat (length (binChunk binData))) ++ le32 CHUNK_BIN.

Definition container (g : GlTF) (binData : list byte) : list byte :=
  header g binData ++ jsonChunkHeader g ++ jsonChunk g
    ++ binChunkHeader binData ++ binChunk binData.

End Layout.

(** ** The sphere, in closed form

    What one iteration of each inner loop of [generateUVSphere] pushes. *)

Module SphereForm.
Section Points.

Variables Math_sin Math_cos : float -> float.

Definition vertex_at (rings sectors i j : nat) : list float :=
  let ringAngle := ((Math_PI * number i) / number rings)%float in
  let xy := (radius * Math_sin ringAngle)%float in
  let z := (radius * Math_cos ringAngle)%float in
  let sectorAngle := ((2 * Math_PI * number j) / number sectors)%float in
  let x := (xy * Math_cos sectorAngle)%float in
  let y := (xy * Math_sin sectorAngle)%float in
  [x; y; z].

Definition normal_at (rings sectors i j : nat) : list float :=
  map (fun c => (c / radius)%float) (vertex_at rings sectors i j).

End Points.

(** The triangles of the quad with corners [k1], [k1 + 1], [k2], [k2 + 1] in
    ring [i]. *)
Definition triangles (rings i k1 k2 : nat) : list nat :=
  (if negb (i =? 0) then [k1; k2; k1 + 1] else [])
  ++ (if negb (Z.of_nat i =? Z.of_nat rings - 1)%Z then [k1 + 1; k2; k2 + 1] else []).

Definition quad (rings sectors i j : nat) : list nat :=
  triangles rings i (i * (sectors + 1) + j) (i * (sectors + 1) + sectors + 1 + j).

(** The number of vertices the tessellation has. *)
Definition vertexCount (subdivisions : nat) : nat :=
  (subdivisions + 1) * (subdivisions * 2 + 1).

End SphereForm.

(** ** The colour buffer, in closed form *)

Module ColorForm.

(** What iteration [i] of the loop of [generateVertexColors] leaves in the
    array. *)
Definition rgba (imageColors : list (list float)) (i : nat) : list float :=
  let c := color_at imageColors i in
  [fround (component c 0); fround (component c 1); fround (component c 2); fround 1].

(** The [i]-th group of four elements of a colour buffer. *)
Definition tuple (colors : list float) (i : nat) : list float := slice colors (4 * i) 4.

End ColorForm.

(** ** The packed buffers, in closed form *)

Module Packed.

(** The order in which [createPhotogrammetryModel] writes the arrays. *)
Definition sphere (Math_sin Math_cos : float -> float) (colors : list (list float))
    (imageCount : nat) : list byte :=
  PhotogrammetryModel.vertexBin Math_sin Math_cos imageCount
  ++ PhotogrammetryModel.indicesBin Math_sin Math_cos imageCount
  ++ PhotogrammetryModel.normalsBin Math_sin Math_cos imageCount
  ++ PhotogrammetryModel.colorBin Math_sin Math_cos colors imageCount.

(** The order in which [createCubeGLB] writes the arrays. *)
Definition cube : list byte :=
  CubeGLB.vertexBin ++ CubeGLB.indicesBin ++ CubeGLB.normalsBin.

End Packed.

(** ** The scene description of the sphere, from its counts *)

Module SceneForm.

(** The number of indices the tessellation has. *)
Definition indexCount (subdivisions : nat) : nat :=
  6 * (subdivisions * 2) * (subdivisions - 1).

(** [PhotogrammetryModel.glTF] with every length replaced by its value for
    [subdivisions]; [sphere_glTF_eq] shows that they are equal. *)
Definition sphere (subdivisions binLength : nat) : GlTF :=
  let vertexCount := SphereForm.vertexCount subdivisions in
  let indexCount := indexCount subdivisions in
  {| generator := "Dimensionally Photogrammetry";
     attributes := [ ("POSITION", 0); ("NORMAL", 1); ("COLOR_0", 2) ];
     primitive_indices := 3;
     material := {| baseColorFactor := [ JInt 1; JInt 1; JInt 1; JInt 1 ];
                    metallicFactor := JNum "0.3";
                    roughnessFactor := JNum "0.7" |};
     accessors :=
       [ {| bufferView := 0; componentType := FLOAT; count := vertexCount;
            type := "VEC3"; min_max := Some ([-1; -1; -1]%Z, [1; 1; 1]%Z) |};
         {| bufferView := 1; componentType := FLOAT; count := vertexCount;
            type := "VEC3"; min_max := None |};
         {| bufferView := 2; componentType := FLOAT; count := 3 * vertexCount;
            type := "VEC4"; min_max := None |};
         {| bufferView := 3; componentType := UNSIGNED_INT; count := indexCount;
            type := "SCALAR"; min_max := None |} ];
     bufferViews :=
       [ {| buffer := 0; byteOffset := 0;
            byteLength := 12 * vertexCount; target := ARRAY_BUFFER |};
         {| buffer := 0; byteOffset := 12 * vertexCount;
            byteLength := 12 * vertexCount; target := ARRAY_BUFFER |};
         {| buffer := 0; byteOffset := 12 * vertexCount + 12 * vertexCount;
            byteLength := 48 * vertexCount; target := ARRAY_BUFFER |};
         {| buffer := 0;
            byteOffset := 12 * vertexCount + 12 * vertexCount + 48 * vertexCount;
            byteLength := 4 * indexCount; target := ELEMENT_ARRAY_BUFFER |} ];
     buffers_byteLength := binLength |}.

End SceneForm.

(** ** Reading a scene description *)

(** The bytes a buffer view denotes in the packed buffer. *)
Definition view_bytes (binData : list byte) (v : BufferView) : list byte :=
  slice binData (byteOffset v) (byteLength v).

(** Byte width of a component type and arity of an element type. *)
Definition componentWidth (componentType : Z) : option nat :=
  if (componentType =? FLOAT)%Z then Some 4
  else if (componentType =? UNSIGNED_INT)%Z then Some 4
  else if (componentType =? UNSIGNED_SHORT)%Z then Some 2
  else None.

Definition arity (type : string) : option nat :=
  if String.eqb type "SCALAR" then Some 1
  else if String.eqb type "VEC3" then Some 3
  else if String.eqb type "VEC4" then Some 4
  else None.

(** The number of bytes an accessor declares: count times component width
    times arity. *)
Definition accessor_bytes (a : Accessor) : option nat :=
  match componentWidth (componentType a), arity (type a) with
  | Some w, Some k => Some (count a * w * k)
  | _, _ => None
  end.

(** The byte length of the buffer view an accessor references. *)
Definition accessor_view_length (g : GlTF) (a : Accessor) : option nat :=
  option_map byteLength (nth_error (bufferViews g) (bufferView a)).

(** The accessor of a named attribute of the primitive. *)
Definition attribute_accessor (g : GlTF) (name : string) : option Accessor :=
  match find (fun kv => String.eqb (fst kv) name) (attributes g) with
  | Some (_, k) => nth_error (accessors g) k
  | None => None
  end.

(** The buffer views of [g] describe the unpadded buffer [binData]: the
    declared buffer length is its length, every view lies inside it, and the
    views' lengths add up to it. *)
Definition views_within (g : GlTF) (binData : list byte) : Prop :=
  buffers_byteLength g = length binData
  /\ Forall (fun v => byteOffset v + byteLength v <= length binData) (bufferViews g)
  /\ list_sum (map byteLength (bufferViews g)) = length binData.

(** ** Observing the progress callback *)

(** An options object whose callback appends what it is given to a log. *)
Definition recording : Image2D3DOptions (list nat) :=
  {| onProgress := Some (fun p log => (log ++ [p], inr tt)) |}.

(** An options object whose callback logs what it is given and throws. *)
Definition throwing (message : string) : Image2D3DOptions (list nat) :=
  {| onProgress := Some (fun p log => (log ++ [p], inl (Error message))) |}.

(** The callback of [options], if there is one, returns whatever it is given
    and whatever the world is. *)
Definition returns_normally {World : Type} (options : Image2D3DOptions World) : Prop :=
  forall (p : nat) (w : World), snd (notify World options p w) = inr tt.

(** Monotonically increasing, in the weak sense. *)
Definition increasing (l : list nat) : Prop :=
  forall i j, i < j < length l -> nth i l 0 <= nth j l 0.

(** ** A sample host

    One concrete choice for everything the sections above leave to the host,
    used to run the definitions on examples. *)

Module SampleHost.

(** Truncated power series; ECMAScript asks no more of [Math.sin] and
    [Math.cos] than an approximation. *)
Fixpoint series (x2 : float) (k terms : nat) : float :=
  match terms with
  | 0 => 1%float
  | S terms' => (1 - x2 / number (k * (k + 1)) * series x2 (k + 2) terms')%float
  end.

Definition Math_sin (x : float) : float := (x * series (x * x) 2 16)%float.
Definition Math_cos (x : float) : float := series (x * x)%float 1 16.

(** Upper case of the ASCII letters. *)
Fixpoint toUpperCase (s : string) : string :=
  match s with
  | EmptyString => EmptyString
  | String c rest =>
      let n := nat_of_ascii c in
      String (if (97 <=? n) && (n <=? 122) then ascii_of_nat (n - 32) else c)
             (toUpperCase rest)
  end.

(** The first three bytes of the file stand for the decoded pixel. *)
Definition sample (file : File) : Sample :=
  match file_bytes file with
  | r :: g :: b :: _ =>
      Pixel (N.to_nat (Byte.to_N r)) (N.to_nat (Byte.to_N g)) (N.to_nat (Byte.to_N b))
  | _ => Rejected
  end.

Definition Scene : Type := unit.
Definition createCubeScene : exn + Scene := inr tt.
Definition exportAs (type : string) (_ : Scene) : exn + Blob :=
  inr {| blob_bytes := encode type; blob_type := type |}.

Definition png (name : string) (r g b : byte) : File :=
  {| file_name := name; file_type := "image/png"; file_bytes := [r; g; b] |}.

Definition eight_images : list File :=
  [ png "0.png" xff x00 x00; png "1.png" x00 xff x00; png "2.png" x00 x00 xff;
    png "3.png" xff xff x00; png "4.png" x00 xff xff; png "5.png" xff x00 xff;
    png "6.png" x80 x80 x80; png "7.png" xff xff xff ].

Definition twenty_five_images : list File :=
  eight_images ++ eight_images ++ eight_images ++ [png "24.png" x10 x20 x30].

Definition convert (files : list File) (outputFormat : string)
  : list nat * (exn + Blob) :=
  convertPhotogrammetry Math_sin Math_cos toUpperCase sample Scene createCubeScene
    (exportAs "model/gltf-binary") (exportAs "application/json") (exportAs "text/plain")
    (exportAs "model/stl") (exportAs "model/vnd.collada+xml")
    (list nat) files outputFormat recording [].

End SampleHost.

(** ** The other functions of the service

    [convertImage2DTo3D], [generateAndExportCube] and [generateSimpleCubeModel]
    of [image-to-3d-service.ts]. *)

Section OtherEntryPoints.

Variable Scene : Type.
Variable createCubeScene : exn + Scene.
Variables exportAsGLB exportAsGLTF exportAsOBJ exportAsSTL exportAsDAE : Scene -> exn + Blob.
Variable World : Type.

Notation "x <-- m ;;; k" := (bind World m (fun x => k))
  (at level 61, m at next level, right associativity).
Notation "m ;;; k" := (bind World m (fun _ => k))
  (at level 61, right associativity).

Definition convertImage2DTo3D (file : File) (outputFormat : string)
    (options : Image2D3DOptions World) : M World Blob :=
  throw World
    (Error "This feature is coming soon! We're working hard to bring 2D to 3D conversion to you.").

Definition generateAndExportCube (format : ModelFormat) (options : Image2D3DOptions World)
  : M World Blob :=
  notify World options 40 ;;;
  blob <-- exportSceneToFormat Scene createCubeScene exportAsGLB exportAsGLTF exportAsOBJ
             exportAsSTL exportAsDAE World format options ;;;
  notify World options 100 ;;;
  ret World blob.

Definition generateSimpleCubeModel (file : File) (options : Image2D3DOptions World)
  : M World Blob :=
  notify World options 40 ;;;
  glbArrayBuffer <-- lift_option World createCubeGLB ;;;
  notify World options 80 ;;;
  ret World {| blob_bytes := glbArrayBuffer; blob_type := "model/gltf-binary" |}.

End OtherEntryPoints.

(** ** The caller: [convert2DTo3D] of [hooks/use-conversion.ts]

    The state of the hook is the world the computation acts on; [setState]
    with an object replaces it, [setState] with a function updates it.  A
    field that an object literal leaves out, or sets to [null], is [None]. *)

Module UseConversion.

Record ConversionState : Type := {
  isConverting : bool;
  progress : nat;
  error : option string;
  result : option Blob;
  resultUrl : option string;
  resultFile : option File;
  resultFormat : option string
}.

Inductive Method : Type := auto | photogrammetry.

(** What [convert2DTo3D] returns: [{ blob, url, file }] or [null]. *)
Definition Outcome : Type := option (Blob * string * File).

Definition setState (st : ConversionState) : M ConversionState unit :=
  fun _ => (st, inr tt).

(** [(progress) => setState((prev) => ({ ...prev, progress }))]. *)
Definition progressOptions : Image2D3DOptions ConversionState :=
  {| onProgress := Some (fun p prev =>
       ({| isConverting := isConverting prev; progress := p; error := error prev;
           result := result prev; resultUrl := resultUrl prev;
           resultFile := resultFile prev; resultFormat := resultFormat prev |},
        inr tt)) |}.

Section Hook.

Variables Math_sin Math_cos : float -> float.
Variables toUpperCase toLowerCase : string -> string.
Variable sample : File -> Sample.
Variable Scene : Type.
Variable createCubeScene : exn + Scene.
Variables exportAsGLB exportAsGLTF exportAsOBJ exportAsSTL exportAsDAE : Scene -> exn + Blob.

(** [URL.createObjectURL]. *)
Variable createObjectURL : Blob -> string.

Notation "x <-- m ;;; k" := (bind ConversionState m (fun x => k))
  (at level 61, m at next level, right associativity).
Notation "m ;;; k" := (bind ConversionState m (fun _ => k))
  (at level 61, right associativity).

Definition convert2DTo3D (files : list File) (format : string) (method : Method)
  : M ConversionState Outcome :=
  match files with
  | [] =>
      setState {| isConverting := false; progress := 0;
                  error := Some "Please select an image file";
                  result := None; resultUrl := None;
                  resultFile := None; resultFormat := None |} ;;;
      ret ConversionState None
  | file :: _ =>
      setState {| isConverting := true; progress := 0; error := None;
                  result := None; resultUrl := None;
                  resultFile := None; resultFormat := None |} ;;;
      try_catch ConversionState
        (blob <--
           match method with
           | photogrammetry =>
               convertPhotogrammetry Math_sin Math_cos toUpperCase sample Scene
                 createCubeScene exportAsGLB exportAsGLTF exportAsOBJ exportAsSTL
                 exportAsDAE ConversionState files format progressOptions
           | auto => convertImage2DTo3D ConversionState file format progressOptions
           end ;;;
         let url := createObjectURL blob in
         let fileName := ("converted." ++ toLowerCase format)%string in
         let file := {| file_name := fileName; file_type := blob_type blob;
                        file_bytes := blob_bytes blob |} in
         setState {| isConverting := false; progress := 100; error := None;
                     result := Some blob; resultUrl := Some url;
                     resultFile := Some file;
                     resultFormat := if String.eqb format "" then None else Some format |} ;;;
         ret ConversionState (Some (blob, url, file)))
        (fun err =>
           let errorMessage :=
             match err with
             | Error message => message
             | Thrown_value => "Conversion failed"
             end in
           setState {| isConverting := false; progress := 0; error := Some errorMessage;
                       result := None; resultUrl := None;
                       resultFile := None; resultFormat := None |} ;;;
           ret ConversionState None)
  end.

End Hook.

End UseConversion.

(** ** The renderer: the pure parts of [lib/three-renderer.ts] *)

Module Renderer.

(** [name.split(".").pop()]: the part of [s] after its last dot, all of [s]
    when it has none; [current] is the segment being read. *)
Fixpoint split_pop (s current : string) : string :=
  match s with
  | EmptyString => current
  | String c rest =>
      if Ascii.eqb c "."%char then split_pop rest EmptyString
      else split_pop rest (current ++ String c EmptyString)%string
  end.

(** [s] holds no dot. *)
Fixpoint dotless (s : string) : bool :=
  match s with
  | EmptyString => true
  | String c rest => negb (Ascii.eqb c "."%char) && dotless rest
  end.

Definition getSupportedFormats : list string := ["fbx"; "obj"; "gltf"; "glb"].

Section LoadModel.

Variable toLowerCase : string -> string.

(** three.js: the object type and [loadAsync] of the three loaders;
    [GLTFLoader_scene] stands for [(await loader.loadAsync(url)).scene]. *)
Variable Object3D : Type.
Variables GLTFLoader_scene FBXLoader_loadAsync OBJLoader_loadAsync : File -> exn + Object3D.

Definition loadModel (file : File) : exn + Object3D :=
  let extension := toLowerCase (split_pop (file_name file) EmptyString) in
  if String.eqb extension "gltf" then GLTFLoader_scene file
  else if String.eqb extension "glb" then GLTFLoader_scene file
  else if String.eqb extension "fbx" then FBXLoader_loadAsync file
  else if String.eqb extension "obj" then OBJLoader_loadAsync file
  else inl (Error ("Unsupported format: " ++ extension)%string).

End LoadModel.

(** The layout of [render3DToSpriteSheet].  [gridCols] is the integer
    [Math.ceil(Math.sqrt(angleCount))] evaluates to; the other quantities are
    quotients and remainders of integers far below 2^53, which the floating
    point operations of the source compute exactly. *)
Section SpriteSheet.

Variables angleCount cellSize gridCols : nat.

(** [Math.ceil(angleCount / gridCols)]. *)
Definition gridRows : nat := (angleCount + gridCols - 1) / gridCols.

Definition totalWidth : nat := gridCols * cellSize.
Definition totalHeight : nat := gridRows * cellSize.

(** The corner [(dx, dy)] of the cell that iteration [i] draws. *)
Definition cell (i : nat) : nat * nat :=
  let col := i mod gridCols in
  let row := i / gridCols in
  let dx := col * cellSize in
  let dy := row * cellSize in
  (dx, dy).

End SpriteSheet.

End Renderer.

(** ** More of the sample host *)

Module SampleCallers.

(** Lower case of the ASCII letters. *)
Fixpoint toLowerCase (s : string) : string :=
  match s with
  | EmptyString => EmptyString
  | String c rest =>
      let n := nat_of_ascii c in
      String (if (65 <=? n) && (n <=? 90) then ascii_of_nat (n + 32) else c)
             (toLowerCase rest)
  end.

Definition createObjectURL (blob : Blob) : string := ("blob:" ++ blob_type blob)%string.

(** A host whose three.js fails to build the scene. *)
Definition brokenScene : exn + SampleHost.Scene := inl (Error "WebGL is not available").

Definition convert2DTo3D (files : list File) (format : string)
    (method : UseConversion.Method) (st : UseConversion.ConversionState)
  : UseConversion.ConversionState * (exn + UseConversion.Outcome) :=
  UseConversion.convert2DTo3D SampleHost.Math_sin SampleHost.Math_cos
    SampleHost.toUpperCase toLowerCase SampleHost.sample SampleHost.Scene
    SampleHost.createCubeScene
    (SampleHost.exportAs "model/gltf-binary") (SampleHost.exportAs "application/json")
    (SampleHost.exportAs "text/plain") (SampleHost.exportAs "model/stl")
    (SampleHost.exportAs "model/vnd.collada+xml")
    createObjectURL files format method st.

Definition idle : UseConversion.ConversionState :=
  {| UseConversion.isConverting := false; UseConversion.progress := 0;
     UseConversion.error := None; UseConversion.result := None;
     UseConversion.resultUrl := None; UseConversion.resultFile := None;
     UseConversion.resultFormat := None |}.

Definition model_file (name : string) : File :=
  {| file_name := name; file_type := "model/gltf-binary"; file_bytes := [] |}.

Definition loader (kind : string) (file : File) : exn + string :=
  inr (kind ++ ":" ++ file_name file)%string.

Definition loadModel : File -> exn + string :=
  Renderer.loadModel toLowerCase string (loader "gltf") (loader "fbx") (loader "obj").

End SampleCallers.

(** * Properties *)

(** ** Loops *)

Lemma for_nil {State : Type} (lo : nat) (body : nat -> State -> State) (s : State) :
  for_ lo lo body s = s.
Proof. unfold for_. now rewrite Nat.sub_diag. Qed.

Lemma for_step {State : Type} (lo hi : nat) (body : nat -> State -> State) (s : State) :
  lo <= hi -> for_ lo (S hi) body s = body hi (for_ lo hi body s).
Proof.
  intros Hle. unfold for_.
  replace (S hi - lo) with (S (hi - lo)) by lia.
  rewrite seq_S, fold_left_app. simpl.
  now replace (lo + (hi - lo)) with hi by lia.
Qed.

(** A loop whose body appends [F i] to one array and [G i] to another. *)
Lemma for_push2 {A B : Type} (body : nat -> list A * list B -> list A * list B)
    (F : nat -> list A) (G : nat -> list B) (n : nat) :
  (forall i st, body i st = (fst st ++ F i, snd st ++ G i)) ->
  forall st, for_ 0 n body st
             = (fst st ++ flat_map F (seq 0 n), snd st ++ flat_map G (seq 0 n)).
Proof.
  intros Hbody st. induction n as [|n IH].
  - rewrite for_nil. simpl. rewrite !app_nil_r. now destruct st.
  - rewrite for_step by lia. rewrite IH, Hbody. simpl fst; simpl snd.
    rewrite seq_S, !flat_map_app. simpl. now rewrite !app_nil_r, !app_assoc.
Qed.

Lemma for_push {A : Type} (body : nat -> list A -> list A) (F : nat -> list A) (n : nat) :
  (forall i st, body i st = st ++ F i) ->
  forall st, for_ 0 n body st = st ++ flat_map F (seq 0 n).
Proof.
  intros Hbody st. induction n as [|n IH].
  - rewrite for_nil. simpl. now rewrite app_nil_r.
  - rewrite for_step by lia. rewrite IH, Hbody.
    rewrite seq_S, flat_map_app. simpl. now rewrite app_nil_r, app_assoc.
Qed.

(** ** Byte operations *)

Lemma length_le32 (v : Z) : length (le32 v) = 4.
Proof. reflexivity. Qed.

Lemma length_le16 (v : Z) : length (le16 v) = 2.
Proof. reflexivity. Qed.

Lemma length_f32le (x : float) : length (f32le x) = 4.
Proof. reflexivity. Qed.

Lemma length_zeros (n : nat) : length (zeros n) = n.
Proof. apply repeat_length. Qed.

Lemma length_Float32Array_bytes (a : list float) :
  length (Float32Array_bytes a) = 4 * length a.
Proof.
  unfold Float32Array_bytes.
  rewrite (flat_map_constant_length (c := 4)); [lia | intros; apply length_f32le].
Qed.

Lemma length_Uint32Array_bytes (a : list nat) :
  length (Uint32Array_bytes a) = 4 * length a.
Proof.
  unfold Uint32Array_bytes.
  rewrite (flat_map_constant_length (c := 4)); [lia | intros; apply length_le32].
Qed.

Lemma length_Uint16Array_bytes (a : list nat) :
  length (Uint16Array_bytes a) = 2 * length a.
Proof.
  unfold Uint16Array_bytes.
  rewrite (flat_map_constant_length (c := 2)); [lia | intros; apply length_le16].
Qed.

Lemma zeros_add (m n : nat) : zeros (m + n) = zeros m ++ zeros n.
Proof. apply repeat_app. Qed.

(** Writing [src] into the zero tail of a buffer, right after its filled
    prefix [a]. *)
Lemma set_bytes_next (a src : list byte) (n off : nat) :
  off = length a -> length src <= n ->
  set_bytes (a ++ zeros n) src off = Some ((a ++ src) ++ zeros (n - length src)).
Proof.
  intros -> Hle. unfold set_bytes.
  rewrite length_app, length_zeros.
  replace (length a + length src <=? length a + n) with true
    by (symmetry; apply Nat.leb_le; lia).
  f_equal.
  rewrite firstn_app, firstn_all, Nat.sub_diag. simpl. rewrite app_nil_r.
  rewrite skipn_app, (skipn_all2 a) by lia. simpl.
  replace (length a + length src - length a) with (length src) by lia.
  replace n with (length src + (n - length src)) at 1 by lia.
  rewrite zeros_add, skipn_app, length_zeros, Nat.sub_diag.
  rewrite skipn_all2 by (rewrite length_zeros; lia).
  simpl. now rewrite <- app_assoc.
Qed.

Lemma set_bytes_first (src : list byte) (n : nat) :
  length src <= n ->
  set_bytes (zeros n) src 0 = Some (src ++ zeros (n - length src)).
Proof. intros Hle. apply (set_bytes_next [] src n 0); [reflexivity | exact Hle]. Qed.

Lemma set_index_app_r {A : Type} (a b : list A) (i : nat) (v : A) :
  set_index (a ++ b) (length a + i) v = a ++ set_index b i v.
Proof.
  unfold set_index. rewrite length_app.
  destruct (i <? length b) eqn:Hi.
  - replace (length a + i <? length a + length b) with true
      by (symmetry; apply Nat.ltb_lt; apply Nat.ltb_lt in Hi; lia).
    rewrite firstn_app, firstn_all2 by lia.
    replace (length a + i - length a) with i by lia.
    rewrite skipn_app, skipn_all2 by lia.
    replace (S (length a + i) - length a) with (S i) by lia.
    simpl. now rewrite <- app_assoc.
  - replace (length a + i <? length a + length b) with false; [reflexivity|].
    symmetry; apply Nat.ltb_ge; apply Nat.ltb_ge in Hi; lia.
Qed.

(** The padding loops: [chunk[n + i] = b] for [i < p] over a zero tail. *)
Lemma pad_loop (buf : list byte) (b : byte) (p : nat) :
  for_ 0 p (fun i c => set_index c (length buf + i) b) (buf ++ zeros p)
  = buf ++ repeat b p.
Proof.
  assert (H : forall k, k <= p ->
            for_ 0 k (fun i c => set_index c (length buf + i) b) (buf ++ zeros p)
            = buf ++ repeat b k ++ zeros (p - k)).
  { induction k as [|k IH]; intros Hk.
    - rewrite for_nil. simpl. now rewrite Nat.sub_0_r.
    - rewrite for_step by lia. rewrite IH by lia.
      rewrite app_assoc.
      replace (length buf + k) with (length (buf ++ repeat b k) + 0)
        by (rewrite length_app, repeat_length; lia).
      rewrite set_index_app_r.
      replace (p - k) with (S (p - S k)) by lia.
      simpl. unfold set_index. simpl.
      rewrite <- app_assoc. f_equal.
      rewrite app_comm_cons, repeat_cons, <- app_assoc. reflexivity. }
  rewrite (H p) by lia. rewrite Nat.sub_diag. simpl. now rewrite app_nil_r.
Qed.

(** ** The assembler in closed form *)

Lemma pad_chunk (buf : list byte) (p : nat) :
  set_bytes (zeros (length buf + p)) buf 0 = Some (buf ++ zeros p).
Proof.
  rewrite set_bytes_first by lia.
  now replace (length buf + p - length buf) with p by lia.
Qed.

Lemma header_field_0 (a : Z) :
  setUint32 (zeros 20) 0 a = Some (le32 a ++ zeros 16).
Proof. reflexivity. Qed.

Lemma header_field_4 (a b : Z) :
  setUint32 (le32 a ++ zeros 16) 4 b = Some (le32 a ++ le32 b ++ zeros 12).
Proof. reflexivity. Qed.

Lemma header_field_8 (a b c : Z) :
  setUint32 (le32 a ++ le32 b ++ zeros 12) 8 c
  = Some (le32 a ++ le32 b ++ le32 c ++ zeros 8).
Proof. reflexivity. Qed.

Lemma chunk_header_field_0 (a : Z) :
  setUint32 (zeros 8) 0 a = Some (le32 a ++ zeros 4).
Proof. reflexivity. Qed.

Lemma chunk_header_field_4 (a b : Z) :
  setUint32 (le32 a ++ zeros 4) 4 b = Some (le32 a ++ le32 b).
Proof. reflexivity. Qed.

(** Five arrays written one after the other into a zeroed array of their
    total length. *)
Lemma combine_parts (p1 p2 p3 p4 p5 : list byte) :
  (f <- set_bytes (zeros (length p1 + length p2 + length p3 + length p4 + length p5)) p1 0 ;;
   f <- set_bytes f p2 (0 + length p1) ;;
   f <- set_bytes f p3 (0 + length p1 + length p2) ;;
   f <- set_bytes f p4 (0 + length p1 + length p2 + length p3) ;;
   f <- set_bytes f p5 (0 + length p1 + length p2 + length p3 + length p4) ;;
   Some f)
  = Some (p1 ++ p2 ++ p3 ++ p4 ++ p5).
Proof.
  rewrite set_bytes_first by lia.
  rewrite set_bytes_next by (rewrite ?length_app; lia).
  rewrite set_bytes_next by (rewrite ?length_app; lia).
  rewrite set_bytes_next by (rewrite ?length_app; lia).
  rewrite set_bytes_next by (rewrite ?length_app; lia).
  f_equal.
  match goal with |- _ ++ zeros ?n = _ => replace n with 0 by lia end.
  simpl. now rewrite app_nil_r, <- !app_assoc.
Qed.

Theorem assemble_eq (g : GlTF) (binData : list byte) :
  assemble g binData = Some (Layout.container g binData).
Proof.
  unfold assemble. cbv zeta.
  fold (Layout.jsonBuf g).
  rewrite pad_chunk. cbv beta iota. rewrite pad_loop. fold (Layout.jsonChunk g).
  rewrite pad_chunk. cbv beta iota. rewrite pad_loop. fold (Layout.binChunk binData).
  fold (Layout.fileLength g binData).
  rewrite header_field_0. cbv beta iota.
  rewrite header_field_4. cbv beta iota.
  rewrite header_field_8. cbv beta iota.
  fold (Layout.header g binData).
  rewrite chunk_header_field_0. cbv beta iota.
  rewrite chunk_header_field_4. cbv beta iota.
  fold (Layout.jsonChunkHeader g).
  rewrite chunk_header_field_0. cbv beta iota.
  rewrite chunk_header_field_4. cbv beta iota.
  fold (Layout.binChunkHeader binData).
  apply combine_parts.
Qed.

(** ** GeometryGenerator: the sphere *)

Section SphereFacts.

Variables Math_sin Math_cos : float -> float.

Let vertex_at := SphereForm.vertex_at Math_sin Math_cos.
Let normal_at := SphereForm.normal_at Math_sin Math_cos.

Lemma sphere_vertex_loop_eq (rings sectors : nat) (st : list float * list float) :
  sphere_vertex_loop Math_sin Math_cos rings sectors st
  = (fst st ++ flat_map (fun i => flat_map (vertex_at rings sectors i) (seq 0 (S sectors)))
                        (seq 0 (S rings)),
     snd st ++ flat_map (fun i => flat_map (normal_at rings sectors i) (seq 0 (S sectors)))
                        (seq 0 (S rings))).
Proof.
  unfold sphere_vertex_loop.
  apply for_push2. intros i st'. cbv zeta.
  apply for_push2. intros j [vs ns]. reflexivity.
Qed.

Lemma sector_loop_eq (rings i n : nat) (inds : list nat) (k1 k2 : nat) :
  for_ 0 n (fun (_ : nat) '(inds, k1, k2) =>
      let inds := if negb (i =? 0) then push inds [k1; k2; k1 + 1] else inds in
      let inds := if negb (Z.of_nat i =? Z.of_nat rings - 1)%Z
                  then push inds [k1 + 1; k2; k2 + 1] else inds in
      (inds, k1 + 1, k2 + 1)) (inds, k1, k2)
  = (inds ++ flat_map (fun j => SphereForm.triangles rings i (k1 + j) (k2 + j)) (seq 0 n),
     k1 + n, k2 + n).
Proof.
  induction n as [|n IH].
  - rewrite for_nil. simpl. now rewrite app_nil_r, !Nat.add_0_r.
  - rewrite for_step by lia. rewrite IH. cbv zeta.
    rewrite seq_S, flat_map_app. simpl. rewrite app_nil_r.
    unfold SphereForm.triangles, push.
    replace (k1 + n + 1) with (k1 + S n) by lia.
    replace (k2 + n + 1) with (k2 + S n) by lia.
    f_equal. f_equal.
    destruct (negb (i =? 0)), (negb (Z.of_nat i =? Z.of_nat rings - 1)%Z);
      rewrite ?app_nil_r, <- ?app_assoc; reflexivity.
Qed.

Lemma sphere_index_loop_eq (rings sectors : nat) (inds : list nat) :
  sphere_index_loop rings sectors inds
  = inds ++ flat_map (fun i => flat_map (SphereForm.quad rings sectors i) (seq 0 sectors))
                     (seq 0 rings).
Proof.
  unfold sphere_index_loop.
  apply for_push. intros i st. cbv zeta.
  rewrite sector_loop_eq. reflexivity.
Qed.

Lemma generateUVSphere_eq (subdivisions : nat) :
  generateUVSphere Math_sin Math_cos subdivisions
  = {| vertices :=
         map fround
           (flat_map (fun i => flat_map (vertex_at subdivisions (subdivisions * 2) i)
                                        (seq 0 (S (subdivisions * 2))))
                     (seq 0 (S subdivisions)));
       indices :=
         flat_map (fun i => flat_map (SphereForm.quad subdivisions (subdivisions * 2) i)
                                     (seq 0 (subdivisions * 2)))
                  (seq 0 subdivisions);
       normals :=
         map fround
           (flat_map (fun i => flat_map (normal_at subdivisions (subdivisions * 2) i)
                                        (seq 0 (S (subdivisions * 2))))
                     (seq 0 (S subdivisions))) |}.
Proof.
  unfold generateUVSphere. cbv zeta.
  rewrite sphere_vertex_loop_eq, sphere_index_loop_eq. reflexivity.
Qed.

Lemma vertices_length (subdivisions : nat) :
  length (vertices (generateUVSphere Math_sin Math_cos subdivisions))
  = 3 * SphereForm.vertexCount subdivisions.
Proof.
  rewrite generateUVSphere_eq. cbn [vertices]. rewrite length_map.
  rewrite (flat_map_constant_length (c := 3 * S (subdivisions * 2))).
  - rewrite length_seq. unfold SphereForm.vertexCount. lia.
  - intros i _. rewrite (flat_map_constant_length (c := 3)).
    + rewrite length_seq. lia.
    + reflexivity.
Qed.

Lemma normals_length (subdivisions : nat) :
  length (normals (generateUVSphere Math_sin Math_cos subdivisions))
  = 3 * SphereForm.vertexCount subdivisions.
Proof.
  rewrite generateUVSphere_eq. cbn [normals]. rewrite length_map.
  rewrite (flat_map_constant_length (c := 3 * S (subdivisions * 2))).
  - rewrite length_seq. unfold SphereForm.vertexCount. lia.
  - intros i _. rewrite (flat_map_constant_length (c := 3)).
    + rewrite length_seq. lia.
    + reflexivity.
Qed.

Lemma indices_eq (subdivisions : nat) :
  indices (generateUVSphere Math_sin Math_cos subdivisions)
  = flat_map (fun i => flat_map (SphereForm.quad subdivisions (subdivisions * 2) i)
                                (seq 0 (subdivisions * 2)))
             (seq 0 subdivisions).
Proof. now rewrite generateUVSphere_eq. Qed.

(** Ring [i] contributes no triangle of the first kind when it is the first
    ring and none of the second kind when it is the last. *)
Lemma triangles_length (rings i k1 k2 : nat) :
  length (SphereForm.triangles rings i k1 k2)
  = (if i =? 0 then 0 else 3) + (if i + 1 =? rings then 0 else 3).
Proof.
  unfold SphereForm.triangles. rewrite length_app.
  destruct (Nat.eqb_spec i 0), (Z.eqb_spec (Z.of_nat i) (Z.of_nat rings - 1)),
    (Nat.eqb_spec (i + 1) rings); simpl; lia.
Qed.

Lemma ring_indices_length (rings sectors i : nat) :
  length (flat_map (SphereForm.quad rings sectors i) (seq 0 sectors))
  = sectors * ((if i =? 0 then 0 else 3) + (if i + 1 =? rings then 0 else 3)).
Proof.
  rewrite (flat_map_constant_length
             (c := (if i =? 0 then 0 else 3) + (if i + 1 =? rings then 0 else 3))).
  - rewrite length_seq. lia.
  - intros j _. apply triangles_length.
Qed.

Lemma rings_indices_length (rings sectors n : nat) :
  n <= rings ->
  length (flat_map (fun i => flat_map (SphereForm.quad rings sectors i) (seq 0 sectors))
                   (seq 0 n))
  = sectors * (3 * (n - 1) + 3 * (n - (if n =? rings then 1 else 0))).
Proof.
  induction n as [|n IH]; intros Hle.
  - simpl. lia.
  - rewrite seq_S, flat_map_app, length_app, IH by lia. simpl flat_map.
    rewrite app_nil_r, ring_indices_length, <- Nat.mul_add_distr_l. f_equal.
    simpl (0 + n).
    destruct (Nat.eqb_spec n rings), (Nat.eqb_spec n 0), (Nat.eqb_spec (n + 1) rings),
      (Nat.eqb_spec (S n) rings); lia.
Qed.

Lemma indices_length (subdivisions : nat) :
  length (indices (generateUVSphere Math_sin Math_cos subdivisions))
  = 6 * (subdivisions * 2) * (subdivisions - 1).
Proof.
  rewrite indices_eq, rings_indices_length by lia.
  rewrite Nat.eqb_refl. nia.
Qed.

Lemma triangles_bound (rings sectors i j k : nat) :
  i < rings -> j < sectors ->
  In k (SphereForm.quad rings sectors i j) ->
  k < (rings + 1) * (sectors + 1).
Proof.
  intros Hi Hj Hin.
  assert (Hk : k <= i * (sectors + 1) + sectors + 1 + j + 1).
  { unfold SphereForm.quad, SphereForm.triangles in Hin.
    apply in_app_or in Hin.
    destruct Hin as [Hin|Hin];
      [destruct (negb (i =? 0)) | destruct (negb (Z.of_nat i =? Z.of_nat rings - 1)%Z)];
      simpl in Hin; intuition lia. }
  assert (Hm : i * (sectors + 1) <= (rings - 1) * (sectors + 1))
    by (apply Nat.mul_le_mono_r; lia).
  nia.
Qed.

Lemma indices_bound (subdivisions : nat) :
  Forall (fun k => k < SphereForm.vertexCount subdivisions)
         (indices (generateUVSphere Math_sin Math_cos subdivisions)).
Proof.
  rewrite indices_eq. apply Forall_forall. intros k Hin.
  apply in_flat_map in Hin. destruct Hin as (i & Hi & Hin).
  apply in_flat_map in Hin. destruct Hin as (j & Hj & Hin).
  apply in_seq in Hi. apply in_seq in Hj.
  unfold SphereForm.vertexCount.
  apply (triangles_bound subdivisions (subdivisions * 2) i j k); [lia | lia | exact Hin].
Qed.

End SphereFacts.

(** ** AttributeColorizer *)

Lemma generateVertexColors_eq (vertexCount : nat) (imageColors : list (list float)) :
  generateVertexColors vertexCount imageColors
  = flat_map (ColorForm.rgba imageColors) (seq 0 vertexCount).
Proof.
  unfold generateVertexColors.
  set (body := fun (i : nat) (colors : list float) => _).
  assert (H : forall k, k <= vertexCount ->
            for_ 0 k body (repeat 0%float (vertexCount * 4))
            = flat_map (ColorForm.rgba imageColors) (seq 0 k)
              ++ repeat 0%float ((vertexCount - k) * 4)).
  { induction k as [|k IH]; intros Hk.
    - rewrite for_nil. simpl. now rewrite Nat.sub_0_r.
    - rewrite for_step by lia. rewrite IH by lia. unfold body at 1.
      set (done := flat_map (ColorForm.rgba imageColors) (seq 0 k)).
      assert (Hlen : length done = k * 4).
      { unfold done. rewrite (flat_map_constant_length (c := 4)).
        - rewrite length_seq. lia.
        - reflexivity. }
      rewrite <- Hlen.
      replace (length done) with (length done + 0) at 1 by lia.
      unfold Float32Array_set. rewrite !set_index_app_r.
      replace ((vertexCount - k) * 4) with (4 + (vertexCount - S k) * 4) by lia.
      rewrite seq_S, flat_map_app. fold done. clearbody done.
      unfold Float32Array_set, set_index. simpl. rewrite <- app_assoc. reflexivity. }
  rewrite (H vertexCount) by lia.
  rewrite Nat.sub_diag. simpl. now rewrite app_nil_r.
Qed.

Lemma generateVertexColors_length (vertexCount : nat) (imageColors : list (list float)) :
  length (generateVertexColors vertexCount imageColors) = 4 * vertexCount.
Proof.
  rewrite generateVertexColors_eq, (flat_map_constant_length (c := 4)).
  - rewrite length_seq. lia.
  - reflexivity.
Qed.

(** Group [i] of a buffer made of groups of [w]. *)
Lemma slice_flat_map {A : Type} (f : nat -> list A) (w n i : nat) :
  (forall j, length (f j) = w) -> i < n ->
  slice (flat_map f (seq 0 n)) (w * i) w = f i.
Proof.
  intros Hw Hi. unfold slice.
  replace n with (i + S (n - S i)) by lia.
  rewrite seq_app, flat_map_app. simpl.
  rewrite skipn_app.
  assert (Hlen : length (flat_map f (seq 0 i)) = w * i).
  { rewrite (flat_map_constant_length (c := w)).
    - rewrite length_seq. lia.
    - intros; apply Hw. }
  rewrite skipn_all2 by lia. rewrite Hlen, Nat.sub_diag. simpl.
  rewrite firstn_app, Hw, Nat.sub_diag. simpl.
  rewrite app_nil_r. rewrite <- (Hw i). apply firstn_all.
Qed.

Lemma tuple_eq (vertexCount : nat) (imageColors : list (list float)) (i : nat) :
  i < vertexCount ->
  ColorForm.tuple (generateVertexColors vertexCount imageColors) i
  = ColorForm.rgba imageColors i.
Proof.
  intros Hi. unfold ColorForm.tuple. rewrite generateVertexColors_eq.
  apply slice_flat_map; [reflexivity | exact Hi].
Qed.

(** ** BufferPacker: what the two producers pack and return *)

Section Producers.

Variables Math_sin Math_cos : float -> float.
Variable colors : list (list float).
Variable imageCount : nat.

Lemma sphere_binData_eq :
  PhotogrammetryModel.binData Math_sin Math_cos colors imageCount
  = Some (Packed.sphere Math_sin Math_cos colors imageCount).
Proof.
  unfold PhotogrammetryModel.binData, Packed.sphere. cbv zeta.
  rewrite set_bytes_first by lia. cbv beta iota.
  rewrite set_bytes_next by (rewrite ?length_app; lia). cbv beta iota.
  rewrite set_bytes_next by (rewrite ?length_app; lia). cbv beta iota.
  rewrite set_bytes_next by (rewrite ?length_app; lia).
  f_equal.
  match goal with |- _ ++ zeros ?n = _ => replace n with 0 by lia end.
  simpl. now rewrite app_nil_r, <- !app_assoc.
Qed.

Theorem createPhotogrammetryModel_eq :
  createPhotogrammetryModel Math_sin Math_cos colors imageCount
  = Some (Layout.container
            (PhotogrammetryModel.glTF Math_sin Math_cos colors imageCount
               (Packed.sphere Math_sin Math_cos colors imageCount))
            (Packed.sphere Math_sin Math_cos colors imageCount)).
Proof.
  unfold createPhotogrammetryModel. rewrite sphere_binData_eq. apply assemble_eq.
Qed.

End Producers.

Lemma cube_binData_eq : CubeGLB.binData = Some Packed.cube.
Proof. vm_compute. reflexivity. Qed.

Theorem createCubeGLB_eq :
  createCubeGLB = Some (Layout.container (CubeGLB.glTF Packed.cube) Packed.cube).
Proof.
  unfold createCubeGLB. rewrite cube_binData_eq. apply assemble_eq.
Qed.

(** ** Padding *)

Lemma paddingNeeded_lt (n : nat) : paddingNeeded n < 4.
Proof. unfold paddingNeeded. apply Nat.mod_upper_bound. lia. Qed.

Lemma paddingNeeded_aligns (n : nat) : (n + paddingNeeded n) mod 4 = 0.
Proof.
  unfold paddingNeeded.
  rewrite Nat.Div0.add_mod, Nat.Div0.mod_mod.
  assert (Hr : n mod 4 < 4) by (apply Nat.mod_upper_bound; lia).
  destruct (n mod 4) as [|[|[|[|r]]]]; try reflexivity. lia.
Qed.

Lemma paddingNeeded_aligned (k : nat) : paddingNeeded (4 * k) = 0.
Proof.
  unfold paddingNeeded. rewrite Nat.mul_comm, Nat.Div0.mod_mul. reflexivity.
Qed.

Lemma sphere_packed_length (Math_sin Math_cos : float -> float)
    (colors : list (list float)) (imageCount : nat) :
  length (Packed.sphere Math_sin Math_cos colors imageCount)
  = length (PhotogrammetryModel.vertexBin Math_sin Math_cos imageCount)
    + length (PhotogrammetryModel.indicesBin Math_sin Math_cos imageCount)
    + length (PhotogrammetryModel.normalsBin Math_sin Math_cos imageCount)
    + length (PhotogrammetryModel.colorBin Math_sin Math_cos colors imageCount).
Proof. unfold Packed.sphere. rewrite !length_app. lia. Qed.

Lemma sphere_views_within (Math_sin Math_cos : float -> float)
    (colors : list (list float)) (imageCount : nat) :
  views_within
    (PhotogrammetryModel.glTF Math_sin Math_cos colors imageCount
       (Packed.sphere Math_sin Math_cos colors imageCount))
    (Packed.sphere Math_sin Math_cos colors imageCount).
Proof.
  unfold views_within. cbn [PhotogrammetryModel.glTF buffers_byteLength bufferViews].
  rewrite sphere_packed_length.
  split; [reflexivity|]. split.
  - repeat constructor; cbn [byteOffset byteLength]; lia.
  - cbn [map list_sum fold_right byteLength]. lia.
Qed.

Lemma sphere_packed_aligned (Math_sin Math_cos : float -> float)
    (colors : list (list float)) (imageCount : nat) :
  paddingNeeded (length (Packed.sphere Math_sin Math_cos colors imageCount)) = 0.
Proof.
  rewrite sphere_packed_length.
  unfold PhotogrammetryModel.vertexBin, PhotogrammetryModel.indicesBin,
    PhotogrammetryModel.normalsBin, PhotogrammetryModel.colorBin.
  rewrite !length_Float32Array_bytes, length_Uint32Array_bytes.
  rewrite <- !Nat.mul_add_distr_l. apply paddingNeeded_aligned.
Qed.

Lemma cube_views_within : views_within (CubeGLB.glTF Packed.cube) Packed.cube.
Proof.
  unfold views_within. split; [reflexivity|]. split.
  - repeat constructor; vm_compute; repeat constructor.
  - vm_compute. reflexivity.
Qed.

(** ** The last byte of the packed arrays of the sphere *)

Lemma last_app_cons {A : Type} (l1 l2 : list A) (x d : A) :
  last (l1 ++ x :: l2) d = last (x :: l2) d.
Proof.
  induction l1 as [|a l1 IH]; [reflexivity|].
  simpl app. rewrite <- IH. simpl. destruct (l1 ++ x :: l2) eqn:E; [|reflexivity].
  destruct l1; discriminate E.
Qed.

Lemma last_skipn {A : Type} (l : list A) (k : nat) (d : A) :
  k < length l -> last (skipn k l) d = last l d.
Proof.
  revert k. induction l as [|a l IH]; intros k Hk; [simpl in Hk; lia|].
  destruct k as [|k]; [reflexivity|].
  simpl skipn. simpl in Hk. rewrite IH by lia.
  destruct l; [simpl in Hk; lia | reflexivity].
Qed.

Lemma subdivisions_range (imageCount : nat) :
  2 <= PhotogrammetryModel.subdivisions imageCount <= 8.
Proof. unfold PhotogrammetryModel.subdivisions. lia. Qed.

Lemma byte_of_small_index (k : nat) :
  (Z.of_nat k < 16777216)%Z -> last (le32 (Z.of_nat k)) x00 = x00.
Proof.
  intros Hk. unfold le32. cbn [last].
  rewrite Z.shiftr_div_pow2 by lia.
  change (2 ^ 24)%Z with 16777216%Z.
  rewrite Z.div_small by lia. reflexivity.
Qed.

Section SphereBytes.

Variables Math_sin Math_cos : float -> float.
Variable colors : list (list float).
Variable imageCount : nat.

Let vertexBin := PhotogrammetryModel.vertexBin Math_sin Math_cos imageCount.
Let indicesBin := PhotogrammetryModel.indicesBin Math_sin Math_cos imageCount.
Let normalsBin := PhotogrammetryModel.normalsBin Math_sin Math_cos imageCount.
Let colorBin := PhotogrammetryModel.colorBin Math_sin Math_cos colors imageCount.

Lemma colorBin_last : last colorBin x00 = x3f.
Proof.
  subst colorBin. unfold PhotogrammetryModel.colorBin, PhotogrammetryModel.vertexColors.
  unfold PhotogrammetryModel.mesh. rewrite vertices_length.
  pose proof (subdivisions_range imageCount) as Hs.
  set (n := SphereForm.vertexCount _).
  assert (Hn : 3 * n = S (3 * n - 1)) by (subst n; unfold SphereForm.vertexCount; lia).
  rewrite Hn, generateVertexColors_eq, seq_S, flat_map_app.
  unfold Float32Array_bytes. rewrite flat_map_app.
  cbn [flat_map]. rewrite app_nil_r. unfold ColorForm.rgba. cbn [flat_map].
  rewrite app_nil_r.
  change (f32le (fround 1)) with [x00; x00; x80; x3f].
  rewrite !app_assoc, last_app_cons. reflexivity.
Qed.

Lemma indicesBin_last : indicesBin <> [] /\ last indicesBin x00 = x00.
Proof.
  subst indicesBin. unfold PhotogrammetryModel.indicesBin, PhotogrammetryModel.mesh.
  pose proof (subdivisions_range imageCount) as Hs.
  set (s := PhotogrammetryModel.subdivisions imageCount) in *.
  pose proof (indices_length Math_sin Math_cos s) as Hlen.
  pose proof (indices_bound Math_sin Math_cos s) as Hb.
  set (inds := indices (generateUVSphere Math_sin Math_cos s)) in *.
  assert (Hne : inds <> []).
  { intros E. rewrite E in Hlen. simpl in Hlen. nia. }
  rewrite (app_removelast_last 0 Hne) in Hb |- *.
  apply Forall_app in Hb. destruct Hb as [_ Hb].
  apply Forall_inv in Hb. unfold SphereForm.vertexCount in Hb.
  unfold Uint32Array_bytes. rewrite flat_map_app. cbn [flat_map]. rewrite app_nil_r.
  split.
  - intros E. apply app_eq_nil in E. destruct E as [_ E]. discriminate E.
  - unfold le32 at 2. rewrite last_app_cons.
    apply (byte_of_small_index (last inds 0)).
    assert ((s + 1) * (s * 2 + 1) <= 153) by nia.
    lia.
Qed.

(** The range the index buffer view declares is the tail of the packed
    buffer, where the colour bytes are. *)
Lemma sphere_index_view_last (v : BufferView) :
  nth_error
    (bufferViews (PhotogrammetryModel.glTF Math_sin Math_cos colors imageCount
                    (Packed.sphere Math_sin Math_cos colors imageCount))) 3
  = Some v ->
  last (view_bytes (Packed.sphere Math_sin Math_cos colors imageCount) v) x00 = x3f.
Proof.
  intros Hv. cbn [PhotogrammetryModel.glTF bufferViews nth_error] in Hv.
  injection Hv as <-. unfold view_bytes, slice. cbn [byteOffset byteLength].
  fold vertexBin normalsBin colorBin indicesBin.
  destruct indicesBin_last as [Hne _].
  assert (Hi : 0 < length indicesBin) by (destruct indicesBin; [congruence | simpl; lia]).
  assert (Hlen : length (Packed.sphere Math_sin Math_cos colors imageCount)
                 = length vertexBin + length indicesBin + length normalsBin + length colorBin)
    by apply sphere_packed_length.
  rewrite firstn_all2 by (rewrite length_skipn; lia).
  rewrite last_skipn by lia.
  unfold Packed.sphere. fold vertexBin normalsBin colorBin indicesBin.
  rewrite <- colorBin_last.
  assert (Hc : colorBin <> []).
  { intros E. pose proof colorBin_last as L. rewrite E in L. discriminate L. }
  destruct colorBin as [|c0 crest] eqn:E; [congruence|].
  rewrite !app_assoc. apply last_app_cons.
Qed.

Lemma sphere_index_bytes_position :
  slice (Packed.sphere Math_sin Math_cos colors imageCount)
        (length vertexBin) (length indicesBin)
  = indicesBin.
Proof.
  unfold slice, Packed.sphere. fold vertexBin normalsBin colorBin indicesBin.
  rewrite skipn_app, skipn_all, Nat.sub_diag. simpl.
  rewrite firstn_app, firstn_all, Nat.sub_diag. simpl. apply app_nil_r.
Qed.

End SphereBytes.

(** ** The sizes of the sphere's arrays and its scene description *)

Section SphereSizes.

Variables Math_sin Math_cos : float -> float.
Variable colors : list (list float).
Variable imageCount : nat.

Let s := PhotogrammetryModel.subdivisions imageCount.

Lemma vertexBin_length :
  length (PhotogrammetryModel.vertexBin Math_sin Math_cos imageCount)
  = 12 * SphereForm.vertexCount s.
Proof.
  unfold PhotogrammetryModel.vertexBin, PhotogrammetryModel.mesh.
  rewrite length_Float32Array_bytes, vertices_length. subst s. lia.
Qed.

Lemma normalsBin_length :
  length (PhotogrammetryModel.normalsBin Math_sin Math_cos imageCount)
  = 12 * SphereForm.vertexCount s.
Proof.
  unfold PhotogrammetryModel.normalsBin, PhotogrammetryModel.mesh.
  rewrite length_Float32Array_bytes, normals_length. subst s. lia.
Qed.

Lemma indicesBin_length :
  length (PhotogrammetryModel.indicesBin Math_sin Math_cos imageCount)
  = 4 * SceneForm.indexCount s.
Proof.
  unfold PhotogrammetryModel.indicesBin, PhotogrammetryModel.mesh.
  rewrite length_Uint32Array_bytes, indices_length. reflexivity.
Qed.

Lemma vertexColors_length :
  length (PhotogrammetryModel.vertexColors Math_sin Math_cos colors imageCount)
  = 4 * (3 * SphereForm.vertexCount s).
Proof.
  unfold PhotogrammetryModel.vertexColors, PhotogrammetryModel.mesh.
  now rewrite generateVertexColors_length, vertices_length.
Qed.

Lemma colorBin_length :
  length (PhotogrammetryModel.colorBin Math_sin Math_cos colors imageCount)
  = 48 * SphereForm.vertexCount s.
Proof.
  unfold PhotogrammetryModel.colorBin.
  rewrite length_Float32Array_bytes, vertexColors_length. lia.
Qed.

Lemma sphere_glTF_eq (binData : list byte) :
  PhotogrammetryModel.glTF Math_sin Math_cos colors imageCount binData
  = SceneForm.sphere s (length binData).
Proof.
  unfold PhotogrammetryModel.glTF, SceneForm.sphere. cbv zeta.
  rewrite vertexBin_length, normalsBin_length, indicesBin_length, colorBin_length,
    vertexColors_length.
  unfold PhotogrammetryModel.mesh.
  rewrite vertices_length, normals_length, indices_length. fold s.
  rewrite !(Nat.mul_comm 3 (SphereForm.vertexCount s)), !Nat.div_mul by lia.
  rewrite (Nat.mul_comm 4 (SphereForm.vertexCount s * 3)), Nat.div_mul by lia.
  rewrite !(Nat.mul_comm (SphereForm.vertexCount s) 3).
  reflexivity.
Qed.

Lemma sphere_packed_size :
  length (Packed.sphere Math_sin Math_cos colors imageCount)
  = 72 * SphereForm.vertexCount s + 4 * SceneForm.indexCount s.
Proof.
  rewrite sphere_packed_length, vertexBin_length, normalsBin_length, indicesBin_length,
    colorBin_length. lia.
Qed.

End SphereSizes.

Lemma container_length (g : GlTF) (binData : list byte) :
  length (Layout.container g binData)
  = 20 + 8 + length (Layout.jsonChunk g) + 8 + length (Layout.binChunk binData).
Proof.
  unfold Layout.container, Layout.header, Layout.jsonChunkHeader, Layout.binChunkHeader.
  rewrite !length_app, !length_le32, length_zeros. lia.
Qed.

(** * The claims of the specification *)

(** C7. For every tessellation parameter [subdivisions] in [2, 8], with
    [rings = subdivisions] and [sectors = 2 * subdivisions], the sphere
    generator produces exactly [(rings + 1) * (sectors + 1)] vertices (three
    coordinates each) and a strictly positive, even number of triangle
    indices, each strictly less than the vertex count; an input count of 25
    yields [subdivisions = 7] and 120 vertices. *)
Theorem C7_sphere_tessellation (Math_sin Math_cos : float -> float) (subdivisions : nat) :
  2 <= subdivisions <= 8 ->
  let rings := subdivisions in
  let sectors := 2 * subdivisions in
  let mesh := generateUVSphere Math_sin Math_cos subdivisions in
  (length (vertices mesh) = 3 * ((rings + 1) * (sectors + 1))
   /\ length (vertices mesh) / 3 = (rings + 1) * (sectors + 1)
   /\ 0 < length (indices mesh)
   /\ Nat.Even (length (indices mesh))
   /\ Forall (fun k => k < (rings + 1) * (sectors + 1)) (indices mesh))
  /\ (PhotogrammetryModel.subdivisions 25 = 7
      /\ length (vertices (PhotogrammetryModel.mesh Math_sin Math_cos 25)) / 3 = 120).
Proof.
  intros Hs rings sectors mesh. subst rings sectors mesh.
  pose proof (vertices_length Math_sin Math_cos subdivisions) as Hv.
  pose proof (indices_length Math_sin Math_cos subdivisions) as Hi.
  pose proof (indices_bound Math_sin Math_cos subdivisions) as Hb.
  unfold SphereForm.vertexCount in Hv, Hb.
  replace (subdivisions * 2) with (2 * subdivisions) in Hv, Hi, Hb by lia.
  split; [repeat split|split].
  - exact Hv.
  - rewrite Hv, Nat.mul_comm. apply Nat.div_mul. lia.
  - rewrite Hi. nia.
  - rewrite Hi. exists (3 * (2 * subdivisions) * (subdivisions - 1)). lia.
  - exact Hb.
  - reflexivity.
  - unfold PhotogrammetryModel.mesh.
    change (PhotogrammetryModel.subdivisions 25) with 7.
    rewrite vertices_length. reflexivity.
Qed.

Lemma C7_sphere_tessellation_witness :
  2 <= 7 <= 8
  /\ length (vertices (generateUVSphere SampleHost.Math_sin SampleHost.Math_cos 7)) / 3
     = (7 + 1) * (2 * 7 + 1)
  /\ Nat.Even (length (indices (generateUVSphere SampleHost.Math_sin SampleHost.Math_cos 7))).
Proof.
  assert (H : 2 <= 7 <= 8) by lia.
  split; [exact H|].
  pose proof (C7_sphere_tessellation SampleHost.Math_sin SampleHost.Math_cos 7 H) as T.
  cbv zeta in T. split; [apply T | apply T].
Defined.





(** C9. In every produced container the padded JSON chunk and the padded
    binary chunk have lengths that are multiples of 4; the bytes appended to
    reach them are spaces (0x20) for the JSON chunk and zeros for the binary
    chunk; and the buffer views and the declared buffer length of the scene
    description cover the unpadded buffer only (in both producers the packed
    buffer already has a length that is a multiple of 4, so the binary chunk
    holds no padding byte at all). *)
Theorem C9_chunk_padding :
  (forall (g : GlTF) (binData : list byte),
     exists jsonPadding binPadding : nat,
       assemble g binData
       = Some (Layout.header g binData
               ++ Layout.jsonChunkHeader g
               ++ (Layout.jsonBuf g ++ repeat x20 jsonPadding)
               ++ Layout.binChunkHeader binData
               ++ (binData ++ repeat x00 binPadding))
       /\ Layout.jsonChunkHeader g
          = le32 (Z.of_nat (length (Layout.jsonBuf g) + jsonPadding)) ++ le32 CHUNK_JSON
       /\ Layout.binChunkHeader binData
          = le32 (Z.of_nat (length binData + binPadding)) ++ le32 CHUNK_BIN
       /\ (length (Layout.jsonBuf g) + jsonPadding) mod 4 = 0 /\ jsonPadding < 4
       /\ (length binData + binPadding) mod 4 = 0 /\ binPadding < 4)
  /\ (forall (Math_sin Math_cos : float -> float) (colors : list (list float))
             (imageCount : nat),
        let binData := Packed.sphere Math_sin Math_cos colors imageCount in
        let g := PhotogrammetryModel.glTF Math_sin Math_cos colors imageCount binData in
        createPhotogrammetryModel Math_sin Math_cos colors imageCount = assemble g binData
        /\ views_within g binData
        /\ paddingNeeded (length binData) = 0)
  /\ (let binData := Packed.cube in
      let g := CubeGLB.glTF binData in
      createCubeGLB = assemble g binData
      /\ views_within g binData
      /\ paddingNeeded (length binData) = 0).
Proof.
  split; [|split].
  - intros g binData.
    exists (paddingNeeded (length (Layout.jsonBuf g))), (paddingNeeded (length binData)).
    split; [apply assemble_eq|].
    unfold Layout.jsonChunkHeader, Layout.binChunkHeader, Layout.jsonChunk, Layout.binChunk.
    rewrite !length_app, !repeat_length.
    repeat split; auto using paddingNeeded_aligns, paddingNeeded_lt.
  - intros Math_sin Math_cos colors imageCount binData g. subst binData g.
    split; [|split].
    + now rewrite createPhotogrammetryModel_eq, assemble_eq.
    + apply sphere_views_within.
    + apply sphere_packed_aligned.
  - cbv zeta. split; [|split].
    + now rewrite createCubeGLB_eq, assemble_eq.
    + apply cube_views_within.
    + vm_compute. reflexivity.
Qed.

(** C5, as the code has it.  Both producers reserve 20 bytes for the file
    header and write three 4-byte fields into them: the container starts with
    the magic constant, the version 2 and the total length, the declared total
    length is 20 + 8 + padded-JSON length + 8 + padded-binary length, bytes
    12 to 19 are zero, and the JSON chunk length stands at byte offset 20.
    For the cube the declared length is 1292 (not 12 + 8 + 804 + 8 + 452 =
    1284), the four bytes at offset 12 are zero and the JSON chunk length 804
    is read at offset 20. *)
Theorem C5_header_occupies_20_bytes :
  (forall (g : GlTF) (binData : list byte),
     exists glb : list byte,
       assemble g binData = Some glb
       /\ length glb
          = 20 + 8 + length (Layout.jsonChunk g) + 8 + length (Layout.binChunk binData)
       /\ slice glb 0 4 = le32 GLB_MAGIC
       /\ slice glb 4 4 = le32 2
       /\ slice glb 8 4
          = le32 (Z.of_nat (20 + 8 + length (Layout.jsonChunk g) + 8
                            + length (Layout.binChunk binData)))
       /\ slice glb 12 8 = zeros 8
       /\ slice glb 20 4 = le32 (Z.of_nat (length (Layout.jsonChunk g))))
  /\ (forall (Math_sin Math_cos : float -> float) (colors : list (list float))
             (imageCount : nat),
        createPhotogrammetryModel Math_sin Math_cos colors imageCount
        = assemble (PhotogrammetryModel.glTF Math_sin Math_cos colors imageCount
                      (Packed.sphere Math_sin Math_cos colors imageCount))
                   (Packed.sphere Math_sin Math_cos colors imageCount))
  /\ (exists glb : list byte,
        createCubeGLB = Some glb
        /\ length (Layout.jsonChunk (CubeGLB.glTF Packed.cube)) = 804
        /\ length (Layout.binChunk Packed.cube) = 452
        /\ length glb = 1292
        /\ slice glb 8 4 = le32 1292
        /\ slice glb 12 4 = [x00; x00; x00; x00]
        /\ slice glb 20 4 = le32 804).
Proof.
  split; [|split].
  - intros g binData. exists (Layout.container g binData).
    split; [apply assemble_eq|].
    split.
    { unfold Layout.container, Layout.header, Layout.jsonChunkHeader, Layout.binChunkHeader.
      rewrite !length_app, !length_le32, length_zeros. lia. }
    repeat split; reflexivity.
  - intros. now rewrite createPhotogrammetryModel_eq, assemble_eq.
  - exists (Layout.container (CubeGLB.glTF Packed.cube) Packed.cube).
    split; [apply createCubeGLB_eq|].
    repeat split; vm_compute; reflexivity.
Qed.

(** C3, as the code has it.  In the scene description of the cube the index
    accessor declares 36 elements of component type 5125 (32-bit unsigned),
    144 bytes, over a buffer view of 72 bytes, the indices being a
    [Uint16Array]; and the normal accessor declares 24 VEC3 elements, 288
    bytes, over a buffer view of 284 bytes (the table holds 71 numbers).  Only
    the position accessor agrees with its view. *)
Theorem C3_cube_accessors_disagree_with_views :
  let g := CubeGLB.glTF Packed.cube in
  map accessor_bytes (accessors g) = [Some 96; Some 144; Some 288]
  /\ map (accessor_view_length g) (accessors g) = [Some 96; Some 72; Some 284]
  /\ map componentType (accessors g) = [FLOAT; UNSIGNED_INT; FLOAT]
  /\ CubeGLB.indicesBin = Uint16Array_bytes CubeGLB.indices
  /\ length CubeGLB.indicesBin = 2 * length CubeGLB.indices
  /\ length CubeGLB.normals = 71.
Proof. cbv zeta. repeat split; vm_compute; reflexivity. Qed.

(** X22.  The sphere producer keeps the invariant of C3: every accessor declares
    as many bytes as the buffer view it references holds, and the index
    accessor declares the 32-bit component type of the [Uint32Array]. *)
Lemma sphere_accessors_agree_with_views (Math_sin Math_cos : float -> float)
    (colors : list (list float)) (imageCount : nat) (binData : list byte) :
  let g := PhotogrammetryModel.glTF Math_sin Math_cos colors imageCount binData in
  Forall (fun a => accessor_bytes a = accessor_view_length g a) (accessors g)
  /\ option_map componentType (nth_error (accessors g) (primitive_indices g))
     = Some UNSIGNED_INT.
Proof.
  cbv zeta. split; [|reflexivity].
  pose proof (vertices_length Math_sin Math_cos (PhotogrammetryModel.subdivisions imageCount))
    as Hv.
  pose proof (normals_length Math_sin Math_cos (PhotogrammetryModel.subdivisions imageCount))
    as Hn.
  fold (PhotogrammetryModel.mesh Math_sin Math_cos imageCount) in Hv, Hn.
  pose proof (generateVertexColors_length
                (length (vertices (PhotogrammetryModel.mesh Math_sin Math_cos imageCount)))
                colors) as Hc.
  fold (PhotogrammetryModel.vertexColors Math_sin Math_cos colors imageCount) in Hc.
  cbn [PhotogrammetryModel.glTF accessors].
  repeat constructor;
    unfold accessor_bytes, accessor_view_length;
    cbn [componentType type count bufferView bufferViews PhotogrammetryModel.glTF
         nth_error option_map byteLength];
    change (componentWidth FLOAT) with (Some 4);
    change (componentWidth UNSIGNED_INT) with (Some 4);
    change (arity "VEC3") with (Some 3);
    change (arity "VEC4") with (Some 4);
    change (arity "SCALAR") with (Some 1);
    cbv iota; f_equal;
    unfold PhotogrammetryModel.vertexBin, PhotogrammetryModel.normalsBin,
      PhotogrammetryModel.colorBin, PhotogrammetryModel.indicesBin;
    rewrite ?length_Float32Array_bytes, ?length_Uint32Array_bytes.
  - rewrite Hv, (Nat.mul_comm 3), Nat.div_mul by lia. lia.
  - rewrite Hn, (Nat.mul_comm 3), Nat.div_mul by lia. lia.
  - rewrite Hc, (Nat.mul_comm 4), Nat.div_mul by lia. lia.
  - lia.
Qed.

(** C4, as the code has it.  In the scene description of the sphere the
    POSITION and NORMAL accessors declare the vertex count, and the COLOR_0
    accessor declares three times as many elements: the colour buffer is
    built for [vertices.length], the number of coordinates, and holds three
    RGBA tuples per vertex. *)
Theorem C4_sphere_color_count (Math_sin Math_cos : float -> float)
    (colors : list (list float)) (imageCount : nat) (binData : list byte) :
  let g := PhotogrammetryModel.glTF Math_sin Math_cos colors imageCount binData in
  let vertexCount := SphereForm.vertexCount (PhotogrammetryModel.subdivisions imageCount) in
  0 < vertexCount
  /\ option_map count (attribute_accessor g "POSITION") = Some vertexCount
  /\ option_map count (attribute_accessor g "NORMAL") = Some vertexCount
  /\ option_map count (attribute_accessor g "COLOR_0") = Some (3 * vertexCount)
  /\ length (PhotogrammetryModel.vertexColors Math_sin Math_cos colors imageCount)
     = 4 * (3 * vertexCount).
Proof.
  cbv zeta.
  pose proof (vertices_length Math_sin Math_cos (PhotogrammetryModel.subdivisions imageCount))
    as Hv.
  pose proof (normals_length Math_sin Math_cos (PhotogrammetryModel.subdivisions imageCount))
    as Hn.
  fold (PhotogrammetryModel.mesh Math_sin Math_cos imageCount) in Hv, Hn.
  assert (Hc : length (PhotogrammetryModel.vertexColors Math_sin Math_cos colors imageCount)
               = 4 * (3 * SphereForm.vertexCount (PhotogrammetryModel.subdivisions imageCount))).
  { unfold PhotogrammetryModel.vertexColors.
    now rewrite generateVertexColors_length, Hv. }
  split; [unfold SphereForm.vertexCount; lia|].
  change (attribute_accessor _ "POSITION")
    with (nth_error (accessors (PhotogrammetryModel.glTF Math_sin Math_cos colors imageCount binData)) 0).
  change (attribute_accessor _ "NORMAL")
    with (nth_error (accessors (PhotogrammetryModel.glTF Math_sin Math_cos colors imageCount binData)) 1).
  change (attribute_accessor _ "COLOR_0")
    with (nth_error (accessors (PhotogrammetryModel.glTF Math_sin Math_cos colors imageCount binData)) 2).
  cbn [PhotogrammetryModel.glTF accessors nth_error option_map count].
  rewrite Hv, Hn, Hc.
  rewrite !(Nat.mul_comm 3 (SphereForm.vertexCount _)), Nat.div_mul by lia.
  rewrite (Nat.mul_comm 4), Nat.div_mul by lia.
  repeat split; f_equal; lia.
Qed.

(** C2, as the code has it.  The cube producer packs position, index,
    normal, and its buffer views denote exactly those byte ranges.  The sphere
    producer packs position, index, normal, colour, while its buffer views are
    laid out as position, normal, colour, index: the index bytes start right
    after the positions, the index buffer view denotes the tail of the packed
    buffer, and the bytes of that range are not the index bytes (the range
    ends with the top byte 0x3f of the alpha component 1.0; the index bytes
    end with the zero top byte of a vertex index). *)
Theorem C2_sphere_views_do_not_follow_the_packing_order
    (Math_sin Math_cos : float -> float) (colors : list (list float)) (imageCount : nat) :
  let vertexBin := PhotogrammetryModel.vertexBin Math_sin Math_cos imageCount in
  let indicesBin := PhotogrammetryModel.indicesBin Math_sin Math_cos imageCount in
  let normalsBin := PhotogrammetryModel.normalsBin Math_sin Math_cos imageCount in
  let colorBin := PhotogrammetryModel.colorBin Math_sin Math_cos colors imageCount in
  let binData := Packed.sphere Math_sin Math_cos colors imageCount in
  let g := PhotogrammetryModel.glTF Math_sin Math_cos colors imageCount binData in
  (PhotogrammetryModel.binData Math_sin Math_cos colors imageCount = Some binData
   /\ binData = vertexBin ++ indicesBin ++ normalsBin ++ colorBin
   /\ map (fun v => (byteOffset v, byteLength v)) (bufferViews g)
      = [ (0, length vertexBin);
          (length vertexBin, length normalsBin);
          (length vertexBin + length normalsBin, length colorBin);
          (length vertexBin + length normalsBin + length colorBin, length indicesBin) ]
   /\ slice binData (length vertexBin) (length indicesBin) = indicesBin
   /\ exists v : BufferView,
        option_map bufferView (nth_error (accessors g) (primitive_indices g)) = Some 3
        /\ nth_error (bufferViews g) 3 = Some v
        /\ last (view_bytes binData v) x00 = x3f
        /\ last indicesBin x00 = x00
        /\ view_bytes binData v <> indicesBin)
  /\ (CubeGLB.binData = Some Packed.cube
      /\ map (view_bytes Packed.cube) (bufferViews (CubeGLB.glTF Packed.cube))
         = [CubeGLB.vertexBin; CubeGLB.indicesBin; CubeGLB.normalsBin]).
Proof.
  cbv zeta. split.
  - split; [apply sphere_binData_eq|].
    split; [reflexivity|].
    split; [reflexivity|].
    split; [apply sphere_index_bytes_position|].
    eexists. split; [reflexivity|]. split; [reflexivity|].
    pose proof (sphere_index_view_last Math_sin Math_cos colors imageCount _ eq_refl) as Hv.
    pose proof (indicesBin_last Math_sin Math_cos imageCount) as [_ Hi].
    split; [exact Hv|]. split; [exact Hi|].
    intros E. rewrite E, Hi in Hv. discriminate Hv.
  - split; [apply cube_binData_eq|]. vm_compute. reflexivity.
Qed.

(** The size of the container of the sphere depends on the image count
    only. *)
Lemma sphere_container_length (Math_sin Math_cos : float -> float)
    (colors : list (list float)) (imageCount : nat) :
  let s := PhotogrammetryModel.subdivisions imageCount in
  let size := 72 * SphereForm.vertexCount s + 4 * SceneForm.indexCount s in
  exists glb : list byte,
    createPhotogrammetryModel Math_sin Math_cos colors imageCount = Some glb
    /\ length glb = 36 + length (Layout.jsonChunk (SceneForm.sphere s size)) + size.
Proof.
  cbv zeta. eexists. split; [apply createPhotogrammetryModel_eq|].
  rewrite container_length, sphere_glTF_eq.
  unfold Layout.binChunk. rewrite length_app, repeat_length, sphere_packed_aligned.
  rewrite sphere_packed_size. lia.
Qed.

(** ** The conversion entry point *)

(** One call of a callback that returns normally. *)
Lemma notify_returns (World : Type) (options : Image2D3DOptions World) (p : nat)
    (w : World) :
  returns_normally options ->
  notify World options p w = (fst (notify World options p w), inr tt).
Proof.
  intros H. rewrite (surjective_pairing (notify World options p w)) at 1.
  now rewrite (H p w).
Qed.

Lemma recording_returns : returns_normally recording.
Proof. intros p w. reflexivity. Qed.

Lemma no_callback_returns (World : Type) :
  returns_normally (World := World) {| onProgress := None |}.
Proof. intros p w. reflexivity. Qed.

(** Runs the next call of a callback that returns normally by [H]. *)
Ltac notified H :=
  match goal with
  | |- context [notify ?W ?o ?p ?w] =>
      rewrite (notify_returns W o p w H); cbv beta iota;
      generalize (fst (notify W o p w)); intro
  end.

Section ServiceFacts.

Variables Math_sin Math_cos : float -> float.
Variable toUpperCase : string -> string.
Variable sample : File -> Sample.
Variable Scene : Type.
Variable createCubeScene : exn + Scene.
Variables exportAsGLB exportAsGLTF exportAsOBJ exportAsSTL exportAsDAE : Scene -> exn + Blob.

Let exportScene' := exportScene Scene exportAsGLB exportAsGLTF exportAsOBJ exportAsSTL exportAsDAE.
Let exportSceneToFormat' :=
  exportSceneToFormat Scene createCubeScene exportAsGLB exportAsGLTF exportAsOBJ
    exportAsSTL exportAsDAE.
Let generate' :=
  generateModelFromPhotogrammetry Math_sin Math_cos sample Scene createCubeScene
    exportAsGLB exportAsGLTF exportAsOBJ exportAsSTL exportAsDAE.
Let convert' :=
  convertPhotogrammetry Math_sin Math_cos toUpperCase sample Scene createCubeScene
    exportAsGLB exportAsGLTF exportAsOBJ exportAsSTL exportAsDAE.

(** What the exporters answer does not depend on the listener. *)
Lemma exportScene_result (World1 World2 : Type) (scene : Scene) (format : ModelFormat)
    (w1 : World1) (w2 : World2) :
  snd (exportScene' World1 scene format w1) = snd (exportScene' World2 scene format w2).
Proof. destruct format; reflexivity. Qed.

Lemma exportScene_world (World : Type) (scene : Scene) (format : ModelFormat) (w : World) :
  fst (exportScene' World scene format w) = w.
Proof. destruct format; reflexivity. Qed.

Lemma exportSceneToFormat_result (World1 World2 : Type) (format : ModelFormat)
    (o1 : Image2D3DOptions World1) (o2 : Image2D3DOptions World2)
    (w1 : World1) (w2 : World2) :
  returns_normally o1 ->
  returns_normally o2 ->
  snd (exportSceneToFormat' World1 format o1 w1)
  = snd (exportSceneToFormat' World2 format o2 w2).
Proof.
  intros H1 H2. subst exportSceneToFormat'.
  unfold exportSceneToFormat, try_catch, bind, lift, ret, throw.
  destruct createCubeScene as [e|scene]; [reflexivity|].
  notified H1. notified H2.
  destruct format; cbn [exportScene lift];
    match goal with |- context [?f scene] => destruct (f scene) end; reflexivity.
Qed.

(** The value [generateModelFromPhotogrammetry] resolves or rejects with is
    that of [exportSceneToFormat]: the files and the container built from
    them have no part in it. *)
Lemma generate_result (World : Type) (files : list File) (format : ModelFormat)
    (options : Image2D3DOptions World) (w w' : World) :
  returns_normally options ->
  snd (generate' World files format options w)
  = snd (exportSceneToFormat' World format options w').
Proof.
  intros H. subst generate'.
  unfold generateModelFromPhotogrammetry, extractImageColors, bind, ret.
  notified H. notified H.
  rewrite createPhotogrammetryModel_eq. unfold lift_option, ret.
  notified H.
  match goal with
  | |- snd (match ?m ?o ?x with _ => _ end) = _ =>
      rewrite (surjective_pairing (m o x));
      rewrite (exportSceneToFormat_result World World format options options _ w' H H)
  end.
  fold exportSceneToFormat'.
  destruct (snd (exportSceneToFormat' World format options w')); [reflexivity|].
  notified H. reflexivity.
Qed.

(** The percentages a recording callback receives from
    [generateModelFromPhotogrammetry]. *)
Lemma generate_log (files : list File) (format : ModelFormat) (log : list nat) :
  fst (generate' (list nat) files format recording log)
  = log ++ [50; 70; 85]
    ++ match createCubeScene with
       | inl _ => []
       | inr scene =>
           50 :: match snd (exportScene' (list nat) scene format []) with
                 | inr _ => [100]
                 | inl _ => []
                 end
       end.
Proof.
  subst generate' exportScene'.
  unfold generateModelFromPhotogrammetry, extractImageColors, bind, notify, ret.
  rewrite createPhotogrammetryModel_eq. unfold lift_option, ret.
  unfold exportSceneToFormat, try_catch, bind, lift, notify, ret, throw.
  cbn [recording onProgress].
  destruct createCubeScene as [e|scene]; cbn [fst snd].
  - now rewrite <- !app_assoc.
  - destruct format; cbn [exportScene lift fst snd];
      match goal with |- context [?f scene] => destruct (f scene) end;
      cbn [fst snd]; rewrite <- !app_assoc; reflexivity.
Qed.

(** The percentages a recording callback receives from the entry point when
    the files pass validation. *)
Lemma convert_log (files : list File) (outputFormat : string) :
  8 <= length files ->
  forallb (fun file => prefix "image/" (file_type file)) files = true ->
  fst (convert' (list nat) files outputFormat recording [])
  = match includes (toUpperCase outputFormat) with
    | Some format => fst (generate' (list nat) files format recording [10; 20; 40])
    | None => fst (generate' (list nat) files GLB recording [10; 20])
    end.
Proof.
  intros Hlen Himg. subst convert'.
  unfold convertPhotogrammetry, try_catch, bind, notify, ret, throw.
  cbn [recording onProgress].
  replace (length files <? 8) with false by (symmetry; apply Nat.ltb_ge; exact Hlen).
  rewrite Himg. cbn [negb].
  destruct (includes (toUpperCase outputFormat)) as [format|]; reflexivity.
Qed.

(** What the entry point resolves or rejects with when the files pass
    validation. *)
Lemma convert_result (World : Type) (files : list File) (outputFormat : string)
    (options : Image2D3DOptions World) (w w' : World) :
  8 <= length files ->
  forallb (fun file => prefix "image/" (file_type file)) files = true ->
  returns_normally options ->
  snd (convert' World files outputFormat options w)
  = snd (exportSceneToFormat' World
           match includes (toUpperCase outputFormat) with
           | Some format => format
           | None => GLB
           end options w').
Proof.
  intros Hlen Himg H. subst convert'.
  unfold convertPhotogrammetry, try_catch, bind, ret, throw.
  notified H.
  replace (length files <? 8) with false by (symmetry; apply Nat.ltb_ge; exact Hlen).
  rewrite Himg. cbn [negb]. notified H.
  destruct (includes (toUpperCase outputFormat)) as [format|];
    [notified H|]; now apply generate_result.
Qed.

(** The files have no part in what [generateModelFromPhotogrammetry] does,
    whatever the callback does: the container built from them is dropped. *)
Lemma generate_ignores_files (World : Type) (files files' : list File)
    (format : ModelFormat) (options : Image2D3DOptions World) (w : World) :
  generate' World files format options w = generate' World files' format options w.
Proof.
  subst generate'.
  unfold generateModelFromPhotogrammetry, extractImageColors, bind, ret.
  destruct (notify World options 50 w) as [w1 [e1|[]]]; [reflexivity|].
  destruct (notify World options 70 w1) as [w2 [e2|[]]]; [reflexivity|].
  rewrite !createPhotogrammetryModel_eq. reflexivity.
Qed.

Lemma convert_ignores_files (World : Type) (files files' : list File)
    (outputFormat : string) (options : Image2D3DOptions World) (w : World) :
  8 <= length files ->
  forallb (fun file => prefix "image/" (file_type file)) files = true ->
  8 <= length files' ->
  forallb (fun file => prefix "image/" (file_type file)) files' = true ->
  convert' World files outputFormat options w
  = convert' World files' outputFormat options w.
Proof.
  intros Hlen Himg Hlen' Himg'. subst convert'.
  unfold convertPhotogrammetry, try_catch, bind, ret, throw.
  destruct (notify World options 10 w) as [w1 [e1|[]]]; [reflexivity|].
  replace (length files <? 8) with false by (symmetry; apply Nat.ltb_ge; exact Hlen).
  replace (length files' <? 8) with false by (symmetry; apply Nat.ltb_ge; exact Hlen').
  rewrite Himg, Himg'. cbn [negb].
  destruct (notify World options 20 w1) as [w2 [e2|[]]]; [reflexivity|].
  destruct (includes (toUpperCase outputFormat)) as [format|].
  - destruct (notify World options 40 w2) as [w3 [e3|[]]]; [reflexivity|].
    apply generate_ignores_files.
  - apply generate_ignores_files.
Qed.

(** C1, as the code has it.  For a request that passes validation, with no
    progress callback or one that returns normally, the entry point returns
    what [exportSceneToFormat] returns for the requested format (GLB when the
    format is not supported): the export of the cube scene.  Two
    such requests get the same answer whatever their files are, and with any
    callback at all, one that throws included, they run alike from the same
    world; while the containers [createPhotogrammetryModel] assembles on the
    way, and drops, differ: 3300 bytes for 8 images, 11660 bytes for 25. *)
Theorem C1_returned_blob_is_the_cube_export (World : Type) (files files' : list File)
    (colors colors' : list (list float)) (outputFormat : string)
    (options : Image2D3DOptions World) (w w' : World) :
  8 <= length files ->
  forallb (fun file => prefix "image/" (file_type file)) files = true ->
  8 <= length files' ->
  forallb (fun file => prefix "image/" (file_type file)) files' = true ->
  let format :=
    match includes (toUpperCase outputFormat) with
    | Some format => format
    | None => GLB
    end in
  (returns_normally options ->
   snd (convertPhotogrammetry Math_sin Math_cos toUpperCase sample Scene createCubeScene
          exportAsGLB exportAsGLTF exportAsOBJ exportAsSTL exportAsDAE World
          files outputFormat options w)
   = snd (exportSceneToFormat Scene createCubeScene
            exportAsGLB exportAsGLTF exportAsOBJ exportAsSTL exportAsDAE World
            format options w')
   /\ snd (convertPhotogrammetry Math_sin Math_cos toUpperCase sample Scene createCubeScene
             exportAsGLB exportAsGLTF exportAsOBJ exportAsSTL exportAsDAE World
             files outputFormat options w)
      = snd (convertPhotogrammetry Math_sin Math_cos toUpperCase sample Scene createCubeScene
               exportAsGLB exportAsGLTF exportAsOBJ exportAsSTL exportAsDAE World
               files' outputFormat options w'))
  /\ convertPhotogrammetry Math_sin Math_cos toUpperCase sample Scene createCubeScene
       exportAsGLB exportAsGLTF exportAsOBJ exportAsSTL exportAsDAE World
       files outputFormat options w
     = convertPhotogrammetry Math_sin Math_cos toUpperCase sample Scene createCubeScene
         exportAsGLB exportAsGLTF exportAsOBJ exportAsSTL exportAsDAE World
         files' outputFormat options w
  /\ exists glb glb' : list byte,
       createPhotogrammetryModel Math_sin Math_cos colors 8 = Some glb
       /\ createPhotogrammetryModel Math_sin Math_cos colors' 25 = Some glb'
       /\ length glb = 3300
       /\ length glb' = 11660.
Proof.
  intros Hlen Himg Hlen' Himg' format. subst format.
  fold convert' exportSceneToFormat'.
  split; [|split].
  - intros Hcb. split; [now apply convert_result|].
    rewrite (convert_result World files outputFormat options w w' Hlen Himg Hcb).
    now rewrite (convert_result World files' outputFormat options w' w' Hlen' Himg' Hcb).
  - now apply convert_ignores_files.
  - destruct (sphere_container_length Math_sin Math_cos colors 8) as (glb & E & L).
    destruct (sphere_container_length Math_sin Math_cos colors' 25) as (glb' & E' & L').
    exists glb, glb'. repeat split; [exact E | exact E' | |].
    + rewrite L. vm_compute. reflexivity.
    + rewrite L'. vm_compute. reflexivity.
Qed.

(** C6, as the code has it.  When the files pass validation and three.js
    builds the cube scene, the callback receives 10, 20, 40 (for a supported
    format), 50, 70, 85, then 50 again from [exportSceneToFormat], and 100 when
    the export succeeds: every value lies in [0, 100], and the sequence is not
    increasing. *)
Theorem C6_progress_falls_back_to_50 (files : list File) (outputFormat : string)
    (scene : Scene) :
  8 <= length files ->
  forallb (fun file => prefix "image/" (file_type file)) files = true ->
  createCubeScene = inr scene ->
  let log :=
    fst (convertPhotogrammetry Math_sin Math_cos toUpperCase sample Scene createCubeScene
           exportAsGLB exportAsGLTF exportAsOBJ exportAsSTL exportAsDAE (list nat)
           files outputFormat recording []) in
  Forall (fun p => p <= 100) log
  /\ (exists pre post : list nat, log = pre ++ [85; 50] ++ post)
  /\ ~ increasing log.
Proof.
  intros Hlen Himg Hscene log. subst log.
  fold convert'. rewrite (convert_log files outputFormat Hlen Himg).
  destruct (includes (toUpperCase outputFormat)) as [format|];
    rewrite generate_log, Hscene;
    destruct (snd (exportScene' (list nat) scene _ [])).
  - split; [repeat constructor; lia|]. split.
    + exists [10; 20; 40; 50; 70], []. reflexivity.
    + intros H. specialize (H 5 6). simpl in H. lia.
  - split; [repeat constructor; lia|]. split.
    + exists [10; 20; 40; 50; 70], [100]. reflexivity.
    + intros H. specialize (H 5 6). simpl in H. lia.
  - split; [repeat constructor; lia|]. split.
    + exists [10; 20; 50; 70], []. reflexivity.
    + intros H. specialize (H 4 5). simpl in H. lia.
  - split; [repeat constructor; lia|]. split.
    + exists [10; 20; 50; 70], [100]. reflexivity.
    + intros H. specialize (H 4 5). simpl in H. lia.
Qed.

(** C10, as amended.  A call of the entry point with fewer than 8 files, or
    with a file whose type does not start with "image/", throws and produces
    no output, and nothing has run but the first notification, 10.  When
    there is no progress callback, or the callback returns from that
    notification, the error's message is "Photogrammetry conversion failed: "
    followed by the reason; when the callback throws, the call throws what the
    callback threw, without the prefix: the notification comes before the
    [try] block. *)
Theorem C10_invalid_input_is_rejected (World : Type) (files : list File)
    (outputFormat : string) (options : Image2D3DOptions World) (w : World) :
  length files < 8
  \/ Exists (fun file => prefix "image/" (file_type file) = false) files ->
  let run :=
    convertPhotogrammetry Math_sin Math_cos toUpperCase sample Scene createCubeScene
      exportAsGLB exportAsGLTF exportAsOBJ exportAsSTL exportAsDAE World
      files outputFormat options w in
  let first := notify World options 10 w in
  (exists e : exn, snd run = inl e)
  /\ fst run = fst first
  /\ (snd first = inr tt ->
      exists reason : string,
        snd run = inl (Error ("Photogrammetry conversion failed: " ++ reason)%string)
        /\ (reason = "Please provide at least 8 images for photogrammetry"
            \/ reason = "All files must be valid image files"))
  /\ (forall e : exn, snd first = inl e -> snd run = inl e).
Proof.
  intros Hbad. cbv zeta.
  unfold convertPhotogrammetry, try_catch, bind, ret, throw.
  destruct (notify World options 10 w) as [w1 [e1|[]]]; cbn [fst snd].
  { split; [now exists e1|]. split; [reflexivity|].
    split; [discriminate | intros e He; now injection He as ->]. }
  destruct (length files <? 8) eqn:Hlen; cbn [fst snd message_of].
  - split; [eexists; reflexivity|]. split; [reflexivity|].
    split; [|discriminate].
    intros _. eexists. split; [reflexivity | left; reflexivity].
  - assert (Himg : forallb (fun file => prefix "image/" (file_type file)) files = false).
    { destruct Hbad as [Hlt|Hex]; [apply Nat.ltb_ge in Hlen; lia|].
      apply Exists_exists in Hex. destruct Hex as (file & Hin & Hty).
      destruct (forallb _ files) eqn:Hall; [|reflexivity].
      rewrite forallb_forall in Hall. specialize (Hall file Hin). congruence. }
    rewrite Himg. cbn [negb fst snd message_of].
    split; [eexists; reflexivity|]. split; [reflexivity|].
    split; [|discriminate].
    intros _. eexists. split; [reflexivity | right; reflexivity].
Qed.

End ServiceFacts.

Lemma C1_returned_blob_is_the_cube_export_witness :
  (8 <= length SampleHost.eight_images
   /\ forallb (fun file => prefix "image/" (file_type file)) SampleHost.eight_images = true
   /\ 8 <= length SampleHost.twenty_five_images
   /\ forallb (fun file => prefix "image/" (file_type file)) SampleHost.twenty_five_images
      = true)
  /\ returns_normally recording
  /\ snd (SampleHost.convert SampleHost.eight_images "glb")
     = snd (SampleHost.convert SampleHost.twenty_five_images "glb").
Proof.
  assert (H8 : 8 <= length SampleHost.eight_images) by (simpl; lia).
  assert (Himg : forallb (fun file => prefix "image/" (file_type file))
                   SampleHost.eight_images = true) by reflexivity.
  assert (H25 : 8 <= length SampleHost.twenty_five_images) by (simpl; lia).
  assert (Himg' : forallb (fun file => prefix "image/" (file_type file))
                    SampleHost.twenty_five_images = true) by reflexivity.
  pose proof (C1_returned_blob_is_the_cube_export
                SampleHost.Math_sin SampleHost.Math_cos SampleHost.toUpperCase
                SampleHost.sample SampleHost.Scene SampleHost.createCubeScene
                (SampleHost.exportAs "model/gltf-binary")
                (SampleHost.exportAs "application/json")
                (SampleHost.exportAs "text/plain")
                (SampleHost.exportAs "model/stl")
                (SampleHost.exportAs "model/vnd.collada+xml")
                (list nat) SampleHost.eight_images SampleHost.twenty_five_images
                [] [] "glb" recording [] [] H8 Himg H25 Himg') as T.
  cbv zeta in T.
  split; [repeat split; assumption|]. split; [exact recording_returns|].
  apply (proj1 T recording_returns).
Defined.

Lemma C6_progress_falls_back_to_50_witness :
  8 <= length SampleHost.eight_images
  /\ forallb (fun file => prefix "image/" (file_type file)) SampleHost.eight_images = true
  /\ SampleHost.createCubeScene = inr tt
  /\ Forall (fun p => p <= 100) (fst (SampleHost.convert SampleHost.eight_images "glb"))
  /\ ~ increasing (fst (SampleHost.convert SampleHost.eight_images "glb")).
Proof.
  assert (H8 : 8 <= length SampleHost.eight_images) by (simpl; lia).
  assert (Himg : forallb (fun file => prefix "image/" (file_type file))
                   SampleHost.eight_images = true) by reflexivity.
  pose proof (C6_progress_falls_back_to_50
                SampleHost.Math_sin SampleHost.Math_cos SampleHost.toUpperCase
                SampleHost.sample SampleHost.Scene SampleHost.createCubeScene
                (SampleHost.exportAs "model/gltf-binary")
                (SampleHost.exportAs "application/json")
                (SampleHost.exportAs "text/plain")
                (SampleHost.exportAs "model/stl")
                (SampleHost.exportAs "model/vnd.collada+xml")
                SampleHost.eight_images "glb" tt H8 Himg eq_refl) as T.
  cbv zeta in T.
  split; [exact H8|]. split; [exact Himg|]. split; [reflexivity|].
  split; [apply T | apply T].
Defined.

Lemma C10_invalid_input_is_rejected_witness :
  length (firstn 7 SampleHost.eight_images) < 8
  /\ fst (SampleHost.convert (firstn 7 SampleHost.eight_images) "glb") = [10]
  /\ exists reason : string,
       snd (SampleHost.convert (firstn 7 SampleHost.eight_images) "glb")
       = inl (Error ("Photogrammetry conversion failed: " ++ reason)%string)
       /\ (reason = "Please provide at least 8 images for photogrammetry"
           \/ reason = "All files must be valid image files").
Proof.
  assert (H : length (firstn 7 SampleHost.eight_images) < 8) by (simpl; lia).
  pose proof (C10_invalid_input_is_rejected
                SampleHost.Math_sin SampleHost.Math_cos SampleHost.toUpperCase
                SampleHost.sample SampleHost.Scene SampleHost.createCubeScene
                (SampleHost.exportAs "model/gltf-binary")
                (SampleHost.exportAs "application/json")
                (SampleHost.exportAs "text/plain")
                (SampleHost.exportAs "model/stl")
                (SampleHost.exportAs "model/vnd.collada+xml")
                (list nat) (firstn 7 SampleHost.eight_images) "glb" recording []
                (or_introl H)) as T.
  cbv zeta in T. destruct T as (_ & Hlog & Hreason & _).
  split; [exact H|]. split; [exact Hlog|]. apply Hreason. reflexivity.
Defined.

(** C10, as the specification states it, fails: with a progress callback that
    throws, a call without any file throws what the callback threw, and the
    message has no prefix. *)
Lemma C10_invalid_input_is_rejected_counterexample :
  length (@nil File) < 8
  /\ convertPhotogrammetry SampleHost.Math_sin SampleHost.Math_cos SampleHost.toUpperCase
       SampleHost.sample SampleHost.Scene SampleHost.createCubeScene
       (SampleHost.exportAs "model/gltf-binary") (SampleHost.exportAs "application/json")
       (SampleHost.exportAs "text/plain") (SampleHost.exportAs "model/stl")
       (SampleHost.exportAs "model/vnd.collada+xml")
       (list nat) [] "glb" (throwing "boom") []
     = ([10], inl (Error "boom"))
  /\ prefix "Photogrammetry conversion failed: " "boom" = false.
Proof. split; [simpl; lia|]. split; reflexivity. Qed.

(** * Further properties of the code *)

(** ** GeometryGenerator *)

Lemma flat_map_flat_map {A B C : Type} (f : A -> list B) (g : B -> list C) (l : list A) :
  flat_map g (flat_map f l) = flat_map (fun x => flat_map g (f x)) l.
Proof.
  induction l as [|a l IH]; [reflexivity|].
  simpl. now rewrite flat_map_app, IH.
Qed.

(** X1. The index array of the sphere is a sequence of triangles, two for
    every quad of a ring that is neither the first nor the last and one for
    the quads of those two, and the three indices of a triangle are pairwise
    different. *)
Theorem sphere_triangles_are_proper (Math_sin Math_cos : float -> float)
    (subdivisions : nat) :
  exists triangles : list (nat * nat * nat),
    indices (generateUVSphere Math_sin Math_cos subdivisions)
    = flat_map (fun t => [fst (fst t); snd (fst t); snd t]) triangles
    /\ length triangles = 2 * (subdivisions * 2) * (subdivisions - 1)
    /\ Forall (fun t => fst (fst t) <> snd (fst t)
                        /\ snd (fst t) <> snd t
                        /\ fst (fst t) <> snd t) triangles.
Proof.
  set (sectors := subdivisions * 2).
  set (quad_triangles := fun i j : nat =>
         let k1 := i * (sectors + 1) + j in
         let k2 := i * (sectors + 1) + sectors + 1 + j in
         (if negb (i =? 0) then [(k1, k2, k1 + 1)] else [])
         ++ (if negb (Z.of_nat i =? Z.of_nat subdivisions - 1)%Z
             then [(k1 + 1, k2, k2 + 1)] else [])).
  set (triangles := flat_map (fun i => flat_map (quad_triangles i) (seq 0 sectors))
                             (seq 0 subdivisions)).
  assert (Heq : indices (generateUVSphere Math_sin Math_cos subdivisions)
                = flat_map (fun t => [fst (fst t); snd (fst t); snd t]) triangles).
  { rewrite indices_eq. subst triangles. rewrite flat_map_flat_map.
    apply flat_map_ext. intros i. rewrite flat_map_flat_map.
    apply flat_map_ext. intros j.
    unfold SphereForm.quad, SphereForm.triangles, quad_triangles. fold sectors. cbv zeta.
    destruct (negb (i =? 0)), (negb (Z.of_nat i =? Z.of_nat subdivisions - 1)%Z);
      reflexivity. }
  exists triangles. split; [exact Heq|]. split.
  - pose proof (indices_length Math_sin Math_cos subdivisions) as Hlen.
    rewrite Heq in Hlen.
    rewrite (flat_map_constant_length (c := 3)) in Hlen by reflexivity.
    fold sectors in Hlen |- *. nia.
  - apply Forall_forall. intros t Hin. subst triangles.
    apply in_flat_map in Hin. destruct Hin as (i & _ & Hin).
    apply in_flat_map in Hin. destruct Hin as (j & Hj & Hin).
    apply in_seq in Hj. unfold quad_triangles in Hin. cbv zeta in Hin.
    apply in_app_or in Hin.
    destruct Hin as [Hin|Hin];
      [destruct (negb (i =? 0)) | destruct (negb (Z.of_nat i =? Z.of_nat subdivisions - 1)%Z)];
      simpl in Hin; try contradiction; destruct Hin as [<-|[]]; simpl; lia.
Qed.

(** X2. More images never give a coarser sphere, and the size of the sphere
    is bounded whatever the image count: the tessellation parameter grows
    with the image count from 2 (fewer than 5 images) to 8 (30 images or
    more), the vertex count stays between 15 and 153 and the index count
    between 24 and 672. *)
Theorem sphere_size_grows_and_saturates (Math_sin Math_cos : float -> float) :
  (forall n m : nat,
     n <= m ->
     length (vertices (PhotogrammetryModel.mesh Math_sin Math_cos n))
     <= length (vertices (PhotogrammetryModel.mesh Math_sin Math_cos m))
     /\ length (indices (PhotogrammetryModel.mesh Math_sin Math_cos n))
        <= length (indices (PhotogrammetryModel.mesh Math_sin Math_cos m)))
  /\ (forall n : nat,
        15 <= length (vertices (PhotogrammetryModel.mesh Math_sin Math_cos n)) / 3 <= 153
        /\ 24 <= length (indices (PhotogrammetryModel.mesh Math_sin Math_cos n)) <= 672)
  /\ (forall n : nat, n < 5 -> PhotogrammetryModel.subdivisions n = 2)
  /\ (forall n : nat, 30 <= n -> PhotogrammetryModel.subdivisions n = 8).
Proof.
  assert (Hmono : forall n m, n <= m ->
            PhotogrammetryModel.subdivisions n <= PhotogrammetryModel.subdivisions m).
  { intros n m Hnm. unfold PhotogrammetryModel.subdivisions.
    assert (n / 5 <= m / 5) by (apply Nat.Div0.div_le_mono; exact Hnm). lia. }
  split; [|split; [|split]].
  - intros n m Hnm. specialize (Hmono n m Hnm).
    unfold PhotogrammetryModel.mesh.
    rewrite !vertices_length, !indices_length. unfold SphereForm.vertexCount.
    pose proof (subdivisions_range n). pose proof (subdivisions_range m).
    split; nia.
  - intros n. unfold PhotogrammetryModel.mesh.
    rewrite vertices_length, indices_length, (Nat.mul_comm 3), Nat.div_mul by lia.
    unfold SphereForm.vertexCount.
    pose proof (subdivisions_range n). split; nia.
  - intros n Hn. unfold PhotogrammetryModel.subdivisions.
    rewrite Nat.div_small by exact Hn. reflexivity.
  - intros n Hn. unfold PhotogrammetryModel.subdivisions.
    assert (30 / 5 <= n / 5) by (apply Nat.Div0.div_le_mono; exact Hn).
    change (30 / 5) with 6 in *. lia.
Qed.

Lemma sphere_size_grows_and_saturates_witness :
  length (vertices (PhotogrammetryModel.mesh SampleHost.Math_sin SampleHost.Math_cos 8))
  <= length (vertices (PhotogrammetryModel.mesh SampleHost.Math_sin SampleHost.Math_cos 25))
  /\ PhotogrammetryModel.subdivisions 4 = 2
  /\ PhotogrammetryModel.subdivisions 31 = 8.
Proof.
  pose proof (sphere_size_grows_and_saturates SampleHost.Math_sin SampleHost.Math_cos)
    as (Hmono & _ & Hlow & Hhigh).
  split; [|split].
  - apply (Hmono 8 25). lia.
  - apply Hlow. lia.
  - apply Hhigh. lia.
Defined.

(** ** AttributeColorizer and the colour sampler *)

Lemma nth_slice {A : Type} (l : list A) (off len k : nat) (d : A) :
  k < len -> nth k (slice l off len) d = nth (off + k) l d.
Proof.
  intros Hk. unfold slice. rewrite nth_firstn.
  replace (k <? len) with true by (symmetry; apply Nat.ltb_lt; exact Hk).
  apply nth_skipn.
Qed.

Lemma color_at_periodic (imageColors : list (list float)) (i : nat) :
  color_at imageColors (i + length imageColors) = color_at imageColors i.
Proof.
  unfold color_at. destruct (length imageColors =? 0); [reflexivity|].
  replace (i + length imageColors) with (i + 1 * length imageColors) by lia.
  now rewrite Nat.Div0.mod_add.
Qed.

(** X3. Whatever the colour list holds, the alpha component of every vertex
    is 1.0; a colour with fewer than three components leaves NaN in the
    missing ones; of a colour with three components or more the buffer holds
    the first three, each rounded to binary32, and ignores the others; and the
    colours repeat with the length of the list as period. *)
Theorem vertex_colors_of_any_list (n : nat) (imageColors : list (list float)) (i : nat) :
  i < n ->
  let colors := generateVertexColors n imageColors in
  nth (4 * i + 3) colors 0%float = 1%float
  /\ (forall k, k < 3 -> length (color_at imageColors i) <= k ->
        nth (4 * i + k) colors 0%float = nan)
  /\ (forall r g b rest, color_at imageColors i = r :: g :: b :: rest ->
        ColorForm.tuple colors i = [fround r; fround g; fround b; 1%float])
  /\ (i + length imageColors < n ->
        ColorForm.tuple colors (i + length imageColors) = ColorForm.tuple colors i).
Proof.
  intros Hi colors. subst colors.
  pose proof (tuple_eq n imageColors i Hi) as Ht.
  assert (Hnth : forall k, k < 4 ->
            nth (4 * i + k) (generateVertexColors n imageColors) 0%float
            = nth k (ColorForm.rgba imageColors i) 0%float).
  { intros k Hk. rewrite <- Ht. unfold ColorForm.tuple. now rewrite nth_slice. }
  split; [rewrite Hnth by lia; reflexivity|].
  split.
  { intros k Hk Hshort. rewrite Hnth by lia. unfold ColorForm.rgba, component.
    destruct k as [|[|[|k]]]; try lia; cbn [nth];
      rewrite nth_overflow by exact Hshort; reflexivity. }
  split.
  { intros r g b rest Hc. rewrite Ht. unfold ColorForm.rgba. now rewrite Hc. }
  intros Hper. rewrite (tuple_eq n imageColors _ Hper), Ht.
  unfold ColorForm.rgba. now rewrite color_at_periodic.
Qed.

Lemma vertex_colors_of_any_list_witness :
  2 < 7
  /\ nth (4 * 2 + 1) (generateVertexColors 7 [[0.25]; [1; 0; 0; 0.5]]%float) 0%float = nan
  /\ ColorForm.tuple (generateVertexColors 7 [[0.25]; [1; 0; 0; 0.5]]%float) (2 + 2)
     = ColorForm.tuple (generateVertexColors 7 [[0.25]; [1; 0; 0; 0.5]]%float) 2
  /\ 1 < 7
  /\ ColorForm.tuple (generateVertexColors 7 [[0.25]; [0.1; 0.2; 0.3; 0.5]]%float) 1
     = [fround 0.1; fround 0.2; fround 0.3; 1]%float.
Proof.
  assert (H : 2 < 7) by lia.
  assert (H1 : 1 < 7) by lia.
  pose proof (vertex_colors_of_any_list 7 [[0.25]; [1; 0; 0; 0.5]]%float 2 H) as T.
  pose proof (vertex_colors_of_any_list 7 [[0.25]; [0.1; 0.2; 0.3; 0.5]]%float 1 H1) as T1.
  cbv zeta in T, T1. destruct T as (_ & Hnan & _ & Hper). destruct T1 as (_ & _ & Hrgb & _).
  split; [exact H|]. split; [|split; [|split; [exact H1|]]].
  - apply (Hnan 1); [lia | simpl; lia].
  - apply Hper. simpl. lia.
  - apply (Hrgb _ _ _ [0.5%float]). reflexivity.
Defined.

(** Every colour channel of a pixel, divided by 255, lies in [0, 1]. *)
Lemma channel_in_unit_interval (r : nat) :
  r <= 255 ->
  ((0 <=? number r / 255) && (number r / 255 <=? 1))%float = true.
Proof.
  intros Hr.
  assert (Hall : forallb (fun r => ((0 <=? number r / 255) && (number r / 255 <=? 1))%float)
                         (seq 0 256) = true) by (vm_compute; reflexivity).
  rewrite forallb_forall in Hall. apply Hall. apply in_seq. lia.
Qed.

(** X4. [extractImageColors] never rejects; it returns at most one colour per
    file, exactly one when every file gets a 2d context, each colour has three
    components, and when the pixels hold byte values every component lies in
    [0, 1]. *)
Theorem extracted_colors_are_rgb_triples (sample : File -> Sample) (World : Type)
    (files : list File) (w : World) :
  (forall file r g b, sample file = Pixel r g b -> r <= 255 /\ g <= 255 /\ b <= 255) ->
  exists colors : list (list float),
    extractImageColors sample World files w = (w, inr colors)
    /\ length colors <= length files
    /\ ((forall file, In file files -> sample file <> No_context) ->
        length colors = length files)
    /\ Forall (fun c => length c = 3) colors
    /\ Forall (Forall (fun x => ((0 <=? x) && (x <=? 1))%float = true)) colors.
Proof.
  intros Hbytes. unfold extractImageColors, ret. eexists. split; [reflexivity|].
  set (step := fun (colors : list (list float)) (file : File) => _).
  assert (H : forall acc,
            Forall (fun c => length c = 3) acc ->
            Forall (Forall (fun x => ((0 <=? x) && (x <=? 1))%float = true)) acc ->
            length (fold_left step files acc) <= length acc + length files
            /\ ((forall file, In file files -> sample file <> No_context) ->
                length (fold_left step files acc) = length acc + length files)
            /\ Forall (fun c => length c = 3) (fold_left step files acc)
            /\ Forall (Forall (fun x => ((0 <=? x) && (x <=? 1))%float = true))
                      (fold_left step files acc)).
  { induction files as [|file files IH]; intros acc H3 H01.
    - simpl. repeat split; auto; lia.
    - cbn [fold_left].
      assert (Hstep : Forall (fun c => length c = 3) (step acc file)
                      /\ Forall (Forall (fun x => ((0 <=? x) && (x <=? 1))%float = true))
                                (step acc file)
                      /\ length (step acc file) <= length acc + 1
                      /\ (sample file <> No_context ->
                          length (step acc file) = length acc + 1)).
      { unfold step, push. destruct (sample file) as [r g b| |] eqn:Es.
        - destruct (Hbytes file r g b Es) as (Hr & Hg & Hb).
          repeat split.
          + apply Forall_app. split; [exact H3|]. repeat constructor.
          + apply Forall_app. split; [exact H01|].
            repeat constructor; now apply channel_in_unit_interval.
          + rewrite length_app. simpl. lia.
          + intros _. rewrite length_app. simpl. lia.
        - repeat split; auto; try lia. intros Hc. congruence.
        - repeat split.
          + apply Forall_app. split; [exact H3|]. repeat constructor.
          + apply Forall_app. split; [exact H01|]. repeat constructor.
          + rewrite length_app. simpl. lia.
          + intros _. rewrite length_app. simpl. lia. }
      destruct Hstep as (S3 & S01 & Sle & Seq).
      destruct (IH (step acc file) S3 S01) as (Ile & Ieq & I3 & I01).
      simpl length. repeat split; auto; try lia.
      intros Hctx. rewrite Ieq by (intros f Hf; apply Hctx; now right).
      rewrite Seq by (apply Hctx; now left). lia. }
  destruct (H [] (Forall_nil _) (Forall_nil _)) as (Hle & Heq & H3 & H01).
  simpl in Hle, Heq. repeat split; auto.
Qed.

Lemma extracted_colors_are_rgb_triples_witness :
  (forall file r g b, SampleHost.sample file = Pixel r g b ->
                      r <= 255 /\ g <= 255 /\ b <= 255)
  /\ exists colors : list (list float),
       extractImageColors SampleHost.sample unit SampleHost.eight_images tt = (tt, inr colors)
       /\ Forall (fun c => length c = 3) colors.
Proof.
  assert (Hbytes : forall file r g b, SampleHost.sample file = Pixel r g b ->
                                      r <= 255 /\ g <= 255 /\ b <= 255).
  { intros file r g b. unfold SampleHost.sample.
    destruct (file_bytes file) as [|x [|y [|z rest]]]; try discriminate.
    intros E. injection E as <- <- <-.
    pose proof (Byte.to_N_bounded x). pose proof (Byte.to_N_bounded y).
    pose proof (Byte.to_N_bounded z). lia. }
  split; [exact Hbytes|].
  destruct (extracted_colors_are_rgb_triples SampleHost.sample unit
              SampleHost.eight_images tt Hbytes) as (colors & E & _ & _ & H3 & _).
  exists colors. split; [exact E | exact H3].
Defined.

(** ** ContainerAssembler and BufferPacker *)

Lemma slice_app_middle {A : Type} (a b c : list A) :
  slice (a ++ b ++ c) (length a) (length b) = b.
Proof.
  unfold slice. rewrite skipn_app, skipn_all, Nat.sub_diag. simpl.
  rewrite firstn_app, firstn_all, Nat.sub_diag. simpl. apply app_nil_r.
Qed.

Lemma slice_at {A : Type} (a b c : list A) (off len : nat) :
  off = length a -> len = length b -> slice (a ++ b ++ c) off len = b.
Proof. intros -> ->. apply slice_app_middle. Qed.

Lemma jsonChunk_aligned (g : GlTF) : length (Layout.jsonChunk g) mod 4 = 0.
Proof.
  unfold Layout.jsonChunk. rewrite length_app, repeat_length. apply paddingNeeded_aligns.
Qed.

Lemma binChunk_aligned (binData : list byte) : length (Layout.binChunk binData) mod 4 = 0.
Proof.
  unfold Layout.binChunk. rewrite length_app, repeat_length. apply paddingNeeded_aligns.
Qed.

(** X5. [assemble] never raises a [RangeError].  The buffer it returns has a
    length that is a multiple of 4 and that is the value of the length field of
    its header; after the 20 header bytes come the JSON chunk header (length of
    the padded JSON, tag "JSON"), the padded JSON, the binary chunk header
    (length of the padded buffer, tag "BIN") and the padded buffer, which ends
    the file. *)
Theorem container_is_header_and_two_chunks (g : GlTF) (binData : list byte) :
  exists glb : list byte,
    assemble g binData = Some glb
    /\ length glb mod 4 = 0
    /\ slice glb 8 4 = le32 (Z.of_nat (length glb))
    /\ slice glb 20 8
       = le32 (Z.of_nat (length (Layout.jsonChunk g))) ++ le32 CHUNK_JSON
    /\ slice glb 28 (length (Layout.jsonChunk g)) = Layout.jsonChunk g
    /\ slice glb (28 + length (Layout.jsonChunk g)) 8
       = le32 (Z.of_nat (length (Layout.binChunk binData))) ++ le32 CHUNK_BIN
    /\ skipn (36 + length (Layout.jsonChunk g)) glb = Layout.binChunk binData.
Proof.
  exists (Layout.container g binData). split; [apply assemble_eq|].
  pose proof (container_length g binData) as Hlen.
  pose proof (jsonChunk_aligned g) as Hj. pose proof (binChunk_aligned binData) as Hb.
  assert (Hh : length (Layout.header g binData) = 20) by reflexivity.
  assert (Hjh : length (Layout.jsonChunkHeader g) = 8) by reflexivity.
  assert (Hbh : length (Layout.binChunkHeader binData) = 8) by reflexivity.
  split.
  { rewrite Hlen.
    apply Nat.Lcm0.mod_divide in Hj. apply Nat.Lcm0.mod_divide in Hb.
    destruct Hj as [j Hj], Hb as [b Hb]. rewrite Hj, Hb.
    replace (20 + 8 + j * 4 + 8 + b * 4) with ((9 + j + b) * 4) by lia.
    apply Nat.Div0.mod_mul. }
  split.
  { rewrite Hlen. reflexivity. }
  unfold Layout.container.
  split.
  { apply (slice_at (Layout.header g binData)); reflexivity. }
  split.
  { rewrite app_assoc. apply slice_at; [rewrite length_app, Hh, Hjh; lia | reflexivity]. }
  split.
  { rewrite (app_assoc (Layout.header g binData)), (app_assoc (_ ++ _) (Layout.jsonChunk g)).
    apply slice_at; [rewrite !length_app, Hh, Hjh; lia | exact (eq_sym Hbh)]. }
  rewrite !app_assoc, skipn_app.
  rewrite skipn_all2 by (rewrite !length_app, Hh, Hjh, Hbh; lia).
  replace (36 + length (Layout.jsonChunk g)
           - length (((Layout.header g binData ++ Layout.jsonChunkHeader g)
                      ++ Layout.jsonChunk g) ++ Layout.binChunkHeader binData))
    with 0 by (rewrite !length_app, Hh, Hjh, Hbh; lia).
  reflexivity.
Qed.

(** X6. The JSON text and the packed buffer are read back from the container
    at the offsets its chunk headers give: the text starts at byte 28, the
    buffer 8 bytes after the padded JSON, and what follows either of them in
    its chunk is padding only, fewer than 4 bytes. *)
Theorem container_payloads_read_back (g : GlTF) (binData : list byte) :
  exists glb : list byte,
    assemble g binData = Some glb
    /\ slice glb 28 (length (Layout.jsonBuf g)) = encode (stringify (glTF_json g))
    /\ slice glb (36 + length (Layout.jsonChunk g)) (length binData) = binData
    /\ length (Layout.jsonChunk g) - length (Layout.jsonBuf g) < 4
    /\ length (Layout.binChunk binData) - length binData < 4.
Proof.
  exists (Layout.container g binData). split; [apply assemble_eq|].
  unfold Layout.container.
  split.
  { unfold Layout.jsonChunk at 1. rewrite app_assoc, <- (app_assoc (Layout.jsonBuf g)).
    apply slice_at; [rewrite length_app; reflexivity | reflexivity]. }
  split.
  { unfold Layout.binChunk.
    rewrite (app_assoc (Layout.header g binData)), (app_assoc (_ ++ _) (Layout.jsonChunk g)),
      (app_assoc (_ ++ _) (Layout.binChunkHeader binData)).
    apply slice_at; [|reflexivity].
    rewrite !length_app.
    change (length (Layout.header g binData)) with 20.
    change (length (Layout.jsonChunkHeader g)) with 8.
    change (length (Layout.binChunkHeader binData)) with 8. lia. }
  unfold Layout.jsonChunk, Layout.binChunk. rewrite !length_app, !repeat_length.
  pose proof (paddingNeeded_lt (length (Layout.jsonBuf g))).
  pose proof (paddingNeeded_lt (length binData)). lia.
Qed.

(** X7. The buffer views of the sphere are declared back to back: each
    starts where the one before it ends, the first at 0, and the last ends at
    the end of the packed buffer; the first of them denotes exactly the
    position bytes. *)
Theorem sphere_views_are_contiguous (Math_sin Math_cos : float -> float)
    (colors : list (list float)) (imageCount : nat) :
  let binData := Packed.sphere Math_sin Math_cos colors imageCount in
  let views := bufferViews (PhotogrammetryModel.glTF Math_sin Math_cos colors imageCount
                              binData) in
  (forall k v, nth_error views k = Some v ->
     byteOffset v = list_sum (map byteLength (firstn k views)))
  /\ list_sum (map byteLength views) = length binData
  /\ option_map (view_bytes binData) (nth_error views 0)
     = Some (PhotogrammetryModel.vertexBin Math_sin Math_cos imageCount).
Proof.
  cbv zeta. split; [|split].
  - intros k v Hv. cbn [PhotogrammetryModel.glTF bufferViews] in Hv |- *.
    destruct k as [|[|[|[|k]]]]; cbn [nth_error] in Hv;
      try (injection Hv as <-; cbn [firstn map list_sum fold_right byteOffset byteLength]; lia).
    destruct k; discriminate Hv.
  - apply sphere_views_within.
  - cbn [PhotogrammetryModel.glTF bufferViews nth_error option_map].
    unfold view_bytes, slice, Packed.sphere. cbn [byteOffset byteLength skipn].
    now rewrite firstn_app, firstn_all, Nat.sub_diag, app_nil_r.
Qed.

(** ** The service and the format converter *)

Lemma includes_iff (s : string) (format : ModelFormat) :
  includes s = Some format <-> s = format_name format.
Proof.
  unfold includes, supportedFormats. cbn [find format_name]. split.
  - repeat match goal with
           | |- context [String.eqb ?a s] => destruct (String.eqb_spec a s)
           end; intros E; try discriminate E; injection E as <-; auto.
  - intros ->. destruct format; reflexivity.
Qed.

Section ServiceMore.

Variables Math_sin Math_cos : float -> float.
Variable toUpperCase : string -> string.
Variable sample : File -> Sample.
Variable Scene : Type.
Variable createCubeScene : exn + Scene.
Variables exportAsGLB exportAsGLTF exportAsOBJ exportAsSTL exportAsDAE : Scene -> exn + Blob.

(** The shape of what [exportSceneToFormat] rejects with. *)
Lemma exportSceneToFormat_failure (World : Type) (format : ModelFormat)
    (options : Image2D3DOptions World) (w : World) (e : exn) :
  snd (exportSceneToFormat Scene createCubeScene exportAsGLB exportAsGLTF exportAsOBJ
         exportAsSTL exportAsDAE World format options w) = inl e ->
  exists cause : exn,
    e = Error ("Export to " ++ format_name format ++ " failed: " ++ message_of cause)%string
    /\ (createCubeScene = inl cause
        \/ exists scene : Scene,
             createCubeScene = inr scene
             /\ (snd (notify World options 50 w) = inl cause
                 \/ snd (notify World options 50 w) = inr tt
                    /\ snd (exportScene Scene exportAsGLB exportAsGLTF exportAsOBJ
                              exportAsSTL exportAsDAE World scene format
                              (fst (notify World options 50 w))) = inl cause)).
Proof.
  unfold exportSceneToFormat, try_catch, bind, lift, ret, throw.
  destruct createCubeScene as [e0|scene]; cbn [fst snd].
  - intros E. injection E as <-. exists e0. split; [reflexivity | now left].
  - destruct (notify World options 50 w) as [w1 [e1|[]]]; cbn [fst snd].
    + intros E. injection E as <-. exists e1.
      split; [reflexivity | right; exists scene; split; [reflexivity | now left]].
    + destruct format; cbn [exportScene lift fst snd];
        match goal with |- context [?f scene] => destruct (f scene) as [e1|b] eqn:Ex end;
        cbn [fst snd]; intros E; try discriminate E; injection E as <-;
        exists e1;
        (split; [reflexivity
                | right; exists scene; split; [reflexivity | right; split; [reflexivity|exact Ex]]]).
Qed.

(** X8. Whatever fails inside [exportSceneToFormat], building the scene, the
    progress callback called with 50, or the exporter of the format, the
    caller gets an [Error] whose message is "Export to <format> failed: "
    followed by the message of the cause. *)
Theorem export_failures_name_the_format (World : Type) (format : ModelFormat)
    (options : Image2D3DOptions World) (w : World) (e : exn) :
  snd (exportSceneToFormat Scene createCubeScene exportAsGLB exportAsGLTF exportAsOBJ
         exportAsSTL exportAsDAE World format options w) = inl e ->
  exists cause : exn,
    e = Error ("Export to " ++ format_name format ++ " failed: " ++ message_of cause)%string
    /\ (createCubeScene = inl cause
        \/ exists scene : Scene,
             createCubeScene = inr scene
             /\ (snd (notify World options 50 w) = inl cause
                 \/ snd (notify World options 50 w) = inr tt
                    /\ snd (exportScene Scene exportAsGLB exportAsGLTF exportAsOBJ
                              exportAsSTL exportAsDAE World scene format
                              (fst (notify World options 50 w))) = inl cause)).
Proof.
  intros Hfail.
  destruct (exportSceneToFormat_failure World format options w e Hfail)
    as (cause & He & Hcause).
  exists cause. split; [exact He | exact Hcause].
Qed.

(** X9. FBX and USDZ are exported by the GLB exporter: when the GLB request
    succeeds, the FBX and the USDZ request return the same blob. *)
Theorem fbx_and_usdz_are_exported_as_glb (World : Type) (options : Image2D3DOptions World)
    (w : World) (blob : Blob) :
  snd (exportSceneToFormat Scene createCubeScene exportAsGLB exportAsGLTF exportAsOBJ
         exportAsSTL exportAsDAE World GLB options w) = inr blob ->
  snd (exportSceneToFormat Scene createCubeScene exportAsGLB exportAsGLTF exportAsOBJ
         exportAsSTL exportAsDAE World FBX options w) = inr blob
  /\ snd (exportSceneToFormat Scene createCubeScene exportAsGLB exportAsGLTF exportAsOBJ
            exportAsSTL exportAsDAE World USDZ options w) = inr blob.
Proof.
  unfold exportSceneToFormat, try_catch, bind, lift, ret, throw.
  destruct createCubeScene as [e0|scene]; cbn [fst snd exportScene lift].
  - discriminate.
  - destruct (notify World options 50 w) as [w1 [e1|[]]]; cbn [fst snd]; [discriminate|].
    destruct (exportAsGLB scene); cbn [fst snd]; [discriminate|]. auto.
Qed.

(** X10. A failure of the export stage reaches the caller of the entry point
    as it is, without the prefix "Photogrammetry conversion failed: " that
    validation errors get, and the callback never receives 100. *)
Theorem export_failure_is_not_rewrapped (files : list File) (outputFormat : string)
    (e : exn) :
  8 <= length files ->
  forallb (fun file => prefix "image/" (file_type file)) files = true ->
  let format :=
    match includes (toUpperCase outputFormat) with
    | Some format => format
    | None => GLB
    end in
  snd (exportSceneToFormat Scene createCubeScene exportAsGLB exportAsGLTF exportAsOBJ
         exportAsSTL exportAsDAE (list nat) format recording []) = inl e ->
  let run :=
    convertPhotogrammetry Math_sin Math_cos toUpperCase sample Scene createCubeScene
      exportAsGLB exportAsGLTF exportAsOBJ exportAsSTL exportAsDAE (list nat)
      files outputFormat recording [] in
  snd run = inl e
  /\ (exists cause : exn,
        e = Error ("Export to " ++ format_name format ++ " failed: "
                     ++ message_of cause)%string)
  /\ ~ In 100 (fst run).
Proof.
  intros Hlen Himg format Hfail run. subst run.
  split.
  { rewrite (convert_result Math_sin Math_cos toUpperCase sample Scene createCubeScene
               exportAsGLB exportAsGLTF exportAsOBJ exportAsSTL exportAsDAE (list nat)
               files outputFormat recording [] [] Hlen Himg recording_returns).
    exact Hfail. }
  split.
  { destruct (exportSceneToFormat_failure _ _ _ _ _ Hfail) as (cause & -> & _).
    now exists cause. }
  rewrite (convert_log Math_sin Math_cos toUpperCase sample Scene createCubeScene
             exportAsGLB exportAsGLTF exportAsOBJ exportAsSTL exportAsDAE
             files outputFormat Hlen Himg).
  assert (Htail : match createCubeScene with
                  | inl _ => []
                  | inr scene =>
                      50 :: match snd (exportScene Scene exportAsGLB exportAsGLTF exportAsOBJ
                                         exportAsSTL exportAsDAE (list nat) scene format [])
                            with
                            | inr _ => [100]
                            | inl _ => []
                            end
                  end = [] \/
                  match createCubeScene with
                  | inl _ => []
                  | inr scene =>
                      50 :: match snd (exportScene Scene exportAsGLB exportAsGLTF exportAsOBJ
                                         exportAsSTL exportAsDAE (list nat) scene format [])
                            with
                            | inr _ => [100]
                            | inl _ => []
                            end
                  end = [50]).
  { revert Hfail.
    unfold exportSceneToFormat, try_catch, bind, lift, notify, ret, throw.
    cbn [recording onProgress].
    destruct createCubeScene as [e0|scene]; cbn [fst snd]; [now left|].
    rewrite (surjective_pairing (exportScene _ _ _ _ _ _ _ scene format _)).
    rewrite (exportScene_result Scene exportAsGLB exportAsGLTF exportAsOBJ exportAsSTL
               exportAsDAE (list nat) (list nat) scene format _ []).
    destruct (snd (exportScene _ _ _ _ _ _ _ scene format [])); cbn [fst snd];
      [now right | discriminate]. }
  subst format.
  destruct (includes (toUpperCase outputFormat)) as [format|];
    rewrite (generate_log Math_sin Math_cos toUpperCase sample Scene createCubeScene
               exportAsGLB exportAsGLTF exportAsOBJ exportAsSTL exportAsDAE);
    destruct Htail as [-> | ->]; simpl; intuition lia.
Qed.

(** X11. The requested format is compared after upper-casing: when it is the
    name of a supported format the entry point notifies 40 and exports that
    format; when it is none of them it exports GLB and 40 is left out. *)
Theorem requested_format_decides_the_export (files : list File) (outputFormat : string) :
  8 <= length files ->
  forallb (fun file => prefix "image/" (file_type file)) files = true ->
  let run :=
    convertPhotogrammetry Math_sin Math_cos toUpperCase sample Scene createCubeScene
      exportAsGLB exportAsGLTF exportAsOBJ exportAsSTL exportAsDAE (list nat)
      files outputFormat recording [] in
  (forall format : ModelFormat,
     toUpperCase outputFormat = format_name format ->
     snd run = snd (exportSceneToFormat Scene createCubeScene exportAsGLB exportAsGLTF
                      exportAsOBJ exportAsSTL exportAsDAE (list nat) format recording [])
     /\ In 40 (fst run))
  /\ ((forall format : ModelFormat, toUpperCase outputFormat <> format_name format) ->
      snd run = snd (exportSceneToFormat Scene createCubeScene exportAsGLB exportAsGLTF
                       exportAsOBJ exportAsSTL exportAsDAE (list nat) GLB recording [])
      /\ ~ In 40 (fst run)).
Proof.
  intros Hlen Himg run. subst run.
  rewrite (convert_result Math_sin Math_cos toUpperCase sample Scene createCubeScene
             exportAsGLB exportAsGLTF exportAsOBJ exportAsSTL exportAsDAE (list nat)
             files outputFormat recording [] [] Hlen Himg recording_returns).
  rewrite (convert_log Math_sin Math_cos toUpperCase sample Scene createCubeScene
             exportAsGLB exportAsGLTF exportAsOBJ exportAsSTL exportAsDAE
             files outputFormat Hlen Himg).
  split.
  - intros format Hname. apply includes_iff in Hname. rewrite Hname.
    split; [reflexivity|].
    rewrite (generate_log Math_sin Math_cos toUpperCase sample Scene createCubeScene
               exportAsGLB exportAsGLTF exportAsOBJ exportAsSTL exportAsDAE).
    simpl. auto.
  - intros Hnone.
    destruct (includes (toUpperCase outputFormat)) as [format|] eqn:E.
    + apply includes_iff in E. now destruct (Hnone format).
    + split; [reflexivity|].
      rewrite (generate_log Math_sin Math_cos toUpperCase sample Scene createCubeScene
                 exportAsGLB exportAsGLTF exportAsOBJ exportAsSTL exportAsDAE).
      destruct createCubeScene as [e0|scene]; [simpl; intuition lia|].
      destruct (snd (exportScene _ _ _ _ _ _ _ scene GLB [])); simpl; intuition lia.
Qed.

(** X12. Validation checks the number of files before their types.  When
    there is no progress callback, or the callback returns from the first
    notification, fewer than 8 files, the empty list included, are rejected
    for their number whatever their types are, and the type message is the
    answer only from 8 files on. *)
Theorem validation_counts_before_it_looks_at_types (World : Type) (files : list File)
    (outputFormat : string) (options : Image2D3DOptions World) (w : World) :
  let run :=
    convertPhotogrammetry Math_sin Math_cos toUpperCase sample Scene createCubeScene
      exportAsGLB exportAsGLTF exportAsOBJ exportAsSTL exportAsDAE World
      files outputFormat options w in
  snd (notify World options 10 w) = inr tt ->
  (length files < 8 ->
   run = (fst (notify World options 10 w),
          inl (Error "Photogrammetry conversion failed: Please provide at least 8 images for photogrammetry")))
  /\ (8 <= length files ->
      Exists (fun file => prefix "image/" (file_type file) = false) files ->
      run = (fst (notify World options 10 w),
             inl (Error "Photogrammetry conversion failed: All files must be valid image files"))).
Proof.
  cbv zeta. intros Hfirst.
  unfold convertPhotogrammetry, try_catch, bind, ret, throw.
  destruct (notify World options 10 w) as [w1 r]. cbn [fst snd] in Hfirst |- *.
  subst r.
  split.
  - intros Hlt. replace (length files <? 8) with true by (symmetry; now apply Nat.ltb_lt).
    reflexivity.
  - intros Hge Hex.
    replace (length files <? 8) with false by (symmetry; now apply Nat.ltb_ge).
    assert (Himg : forallb (fun file => prefix "image/" (file_type file)) files = false).
    { apply Exists_exists in Hex. destruct Hex as (file & Hin & Hty).
      destruct (forallb _ files) eqn:Hall; [|reflexivity].
      rewrite forallb_forall in Hall. specialize (Hall file Hin). congruence. }
    rewrite Himg. reflexivity.
Qed.

(** X13. [generateAndExportCube] notifies 40, then 50 when the scene is
    built, then 100 when the export succeeds: the sequence is increasing in
    every case, 100 is delivered exactly when a blob is returned, and the
    outcome is that of [exportSceneToFormat]. *)
Theorem cube_export_progress_is_increasing (format : ModelFormat) :
  let run :=
    generateAndExportCube Scene createCubeScene exportAsGLB exportAsGLTF exportAsOBJ
      exportAsSTL exportAsDAE (list nat) format recording [] in
  increasing (fst run)
  /\ (In 100 (fst run) <-> exists blob : Blob, snd run = inr blob)
  /\ snd run = snd (exportSceneToFormat Scene createCubeScene exportAsGLB exportAsGLTF
                      exportAsOBJ exportAsSTL exportAsDAE (list nat) format recording []).
Proof.
  cbv zeta.
  assert (Hinc : forall l, l = [40] \/ l = [40; 50] \/ l = [40; 50; 100] -> increasing l).
  { intros l Hl i j Hij.
    destruct Hl as [-> | [-> | ->]]; simpl in Hij;
      destruct i as [|[|[|i]]], j as [|[|[|j]]]; simpl; lia. }
  unfold generateAndExportCube, exportSceneToFormat, try_catch, bind, lift, notify, ret, throw.
  cbn [recording onProgress].
  destruct createCubeScene as [e0|scene]; cbn [fst snd app].
  - split; [apply Hinc; auto|]. split; [|reflexivity].
    split; [simpl; intuition lia | intros [b Hb]; discriminate Hb].
  - destruct format; cbn [exportScene lift fst snd];
      match goal with |- context [?f scene] => destruct (f scene) as [e1|b] end;
      cbn [fst snd app];
      (split; [apply Hinc; auto|]); (split; [|reflexivity]);
      (split; [simpl; intuition (try lia; eauto) | intros [b' Hb]; simpl; try discriminate Hb; auto]).
Qed.

(** X14. [generateSimpleCubeModel] always resolves: the callback receives 40
    and 80 and nothing else, and the blob has type "model/gltf-binary" and
    holds the container of [createCubeGLB]. *)
Theorem simple_cube_model_always_resolves (file : File) :
  exists glb : list byte,
    createCubeGLB = Some glb
    /\ generateSimpleCubeModel (list nat) file recording []
       = ([40; 80], inr {| blob_bytes := glb; blob_type := "model/gltf-binary" |}).
Proof.
  eexists. split; [apply createCubeGLB_eq|].
  unfold generateSimpleCubeModel, bind, notify, ret. rewrite createCubeGLB_eq. reflexivity.
Qed.

End ServiceMore.

(** ** The caller [convert2DTo3D] *)

Lemma progressOptions_returns : returns_normally UseConversion.progressOptions.
Proof. intros p st. reflexivity. Qed.

Section HookFacts.

Variables Math_sin Math_cos : float -> float.
Variables toUpperCase toLowerCase : string -> string.
Variable sample : File -> Sample.
Variable Scene : Type.
Variable createCubeScene : exn + Scene.
Variables exportAsGLB exportAsGLTF exportAsOBJ exportAsSTL exportAsDAE : Scene -> exn + Blob.
Variable createObjectURL : Blob -> string.

Let convert2DTo3D' :=
  UseConversion.convert2DTo3D Math_sin Math_cos toUpperCase toLowerCase sample Scene
    createCubeScene exportAsGLB exportAsGLTF exportAsOBJ exportAsSTL exportAsDAE
    createObjectURL.

(** X15. [convert2DTo3D] never rejects and never leaves the hook converting.
    When it returns a result the state holds that blob, its URL and a file
    named "converted." followed by the lower-cased requested format with the
    bytes and type of the blob, at progress 100 and without error; when it
    returns [null] the state holds an error and no result, at progress 0. *)
Theorem convert2DTo3D_settles_the_state (files : list File) (format : string)
    (method : UseConversion.Method) (st0 : UseConversion.ConversionState) :
  exists (st : UseConversion.ConversionState) (out : UseConversion.Outcome),
    UseConversion.convert2DTo3D Math_sin Math_cos toUpperCase toLowerCase sample Scene
      createCubeScene exportAsGLB exportAsGLTF exportAsOBJ exportAsSTL exportAsDAE
      createObjectURL files format method st0 = (st, inr out)
    /\ UseConversion.isConverting st = false
    /\ match out with
       | Some (blob, url, file) =>
           UseConversion.progress st = 100
           /\ UseConversion.error st = None
           /\ UseConversion.result st = Some blob
           /\ UseConversion.resultUrl st = Some url
           /\ UseConversion.resultFile st = Some file
           /\ url = createObjectURL blob
           /\ file = {| file_name := ("converted." ++ toLowerCase format)%string;
                        file_type := blob_type blob;
                        file_bytes := blob_bytes blob |}
       | None =>
           UseConversion.progress st = 0
           /\ (exists message : string, UseConversion.error st = Some message)
           /\ UseConversion.result st = None
           /\ UseConversion.resultUrl st = None
           /\ UseConversion.resultFile st = None
       end.
Proof.
  unfold UseConversion.convert2DTo3D.
  destruct files as [|file files].
  - do 2 eexists. split; [reflexivity|]. cbn. repeat split; eauto.
  - unfold bind, try_catch, UseConversion.setState, ret. cbv zeta.
    destruct method.
    + do 2 eexists. split; [reflexivity|]. cbn. repeat split; eauto.
    + destruct (convertPhotogrammetry _ _ _ _ _ _ _ _ _ _ _ _ _ _ _ _) as [st1 [e|blob]].
      * do 2 eexists. split; [reflexivity|]. cbn. repeat split; eauto.
      * do 2 eexists. split; [reflexivity|]. cbn. repeat split; eauto.
Qed.

(** X16. With the method "auto" every request with at least one file ends in
    the error of [convertImage2DTo3D], and one without files in "Please select
    an image file"; no result is produced. *)
Theorem auto_method_is_not_available (files : list File) (format : string)
    (st0 : UseConversion.ConversionState) :
  let run :=
    UseConversion.convert2DTo3D Math_sin Math_cos toUpperCase toLowerCase sample Scene
      createCubeScene exportAsGLB exportAsGLTF exportAsOBJ exportAsSTL exportAsDAE
      createObjectURL files format UseConversion.auto st0 in
  snd run = inr None
  /\ UseConversion.error (fst run)
     = Some (match files with
             | [] => "Please select an image file"
             | _ :: _ =>
                 "This feature is coming soon! We're working hard to bring 2D to 3D conversion to you."
             end)
  /\ UseConversion.result (fst run) = None.
Proof.
  cbv zeta. unfold UseConversion.convert2DTo3D.
  destruct files as [|file files]; cbn; repeat split; reflexivity.
Qed.

(** X17. A photogrammetry request with 1 to 7 files ends with the error
    "Photogrammetry conversion failed: Please provide at least 8 images for
    photogrammetry", progress back at 0 and no result. *)
Theorem too_few_images_end_in_an_error (files : list File) (format : string)
    (st0 : UseConversion.ConversionState) :
  0 < length files < 8 ->
  let run :=
    UseConversion.convert2DTo3D Math_sin Math_cos toUpperCase toLowerCase sample Scene
      createCubeScene exportAsGLB exportAsGLTF exportAsOBJ exportAsSTL exportAsDAE
      createObjectURL files format UseConversion.photogrammetry st0 in
  snd run = inr None
  /\ UseConversion.error (fst run)
     = Some "Photogrammetry conversion failed: Please provide at least 8 images for photogrammetry"
  /\ UseConversion.progress (fst run) = 0
  /\ UseConversion.isConverting (fst run) = false
  /\ UseConversion.result (fst run) = None.
Proof.
  intros Hlen. cbv zeta. unfold UseConversion.convert2DTo3D.
  destruct files as [|file files]; [simpl in Hlen; lia|].
  unfold convertPhotogrammetry, bind, try_catch, UseConversion.setState, ret, throw.
  cbn [notify UseConversion.progressOptions onProgress fst snd].
  replace (length (file :: files) <? 8) with true
    by (symmetry; apply Nat.ltb_lt; lia).
  cbn. repeat split; reflexivity.
Qed.

(** X18. When the files pass validation and the export succeeds, the hook
    returns the exported blob in a file named after the requested format,
    lower-cased, also when that format is not supported and GLB was exported
    in its place. *)
Theorem converted_file_is_named_after_the_request (files : list File) (format : string)
    (st0 : UseConversion.ConversionState) (blob : Blob) :
  8 <= length files ->
  forallb (fun file => prefix "image/" (file_type file)) files = true ->
  snd (exportSceneToFormat Scene createCubeScene exportAsGLB exportAsGLTF exportAsOBJ
         exportAsSTL exportAsDAE unit
         match includes (toUpperCase format) with
         | Some f => f
         | None => GLB
         end {| onProgress := None |} tt) = inr blob ->
  let run :=
    UseConversion.convert2DTo3D Math_sin Math_cos toUpperCase toLowerCase sample Scene
      createCubeScene exportAsGLB exportAsGLTF exportAsOBJ exportAsSTL exportAsDAE
      createObjectURL files format UseConversion.photogrammetry st0 in
  snd run
  = inr (Some (blob, createObjectURL blob,
               {| file_name := ("converted." ++ toLowerCase format)%string;
                  file_type := blob_type blob;
                  file_bytes := blob_bytes blob |}))
  /\ UseConversion.progress (fst run) = 100
  /\ UseConversion.result (fst run) = Some blob.
Proof.
  intros Hlen Himg Hexport. cbv zeta. unfold UseConversion.convert2DTo3D.
  destruct files as [|file files]; [simpl in Hlen; lia|].
  unfold bind, try_catch, UseConversion.setState, ret. cbv zeta.
  match goal with
  | |- context [convertPhotogrammetry ?a ?b ?c ?d ?e ?f ?g ?h ?i ?j ?k ?W ?fs ?fm ?o ?w] =>
      pose proof (convert_result a b c d e f g h i j k W fs fm o w w Hlen Himg
                    progressOptions_returns) as Hres;
      destruct (convertPhotogrammetry a b c d e f g h i j k W fs fm o w) as [st1 r]
  end.
  cbn [snd] in Hres.
  rewrite (exportSceneToFormat_result Math_sin Math_cos toUpperCase sample Scene
             createCubeScene exportAsGLB exportAsGLTF exportAsOBJ exportAsSTL exportAsDAE
             _ unit _ _ {| onProgress := None |} _ tt
             progressOptions_returns (no_callback_returns unit)) in Hres.
  rewrite Hexport in Hres. subst r. cbn. repeat split; reflexivity.
Qed.

End HookFacts.

Lemma too_few_images_end_in_an_error_witness :
  0 < length (firstn 3 SampleHost.eight_images) < 8
  /\ UseConversion.error
       (fst (SampleCallers.convert2DTo3D (firstn 3 SampleHost.eight_images) "GLB"
               UseConversion.photogrammetry SampleCallers.idle))
     = Some "Photogrammetry conversion failed: Please provide at least 8 images for photogrammetry".
Proof.
  assert (H : 0 < length (firstn 3 SampleHost.eight_images) < 8) by (simpl; lia).
  split; [exact H|].
  exact (proj1 (proj2 (too_few_images_end_in_an_error
           SampleHost.Math_sin SampleHost.Math_cos SampleHost.toUpperCase
           SampleCallers.toLowerCase SampleHost.sample SampleHost.Scene
           SampleHost.createCubeScene
           (SampleHost.exportAs "model/gltf-binary") (SampleHost.exportAs "application/json")
           (SampleHost.exportAs "text/plain") (SampleHost.exportAs "model/stl")
           (SampleHost.exportAs "model/vnd.collada+xml")
           SampleCallers.createObjectURL
           (firstn 3 SampleHost.eight_images) "GLB" SampleCallers.idle H))).
Defined.

Lemma converted_file_is_named_after_the_request_witness :
  (8 <= length SampleHost.eight_images
   /\ forallb (fun file => prefix "image/" (file_type file)) SampleHost.eight_images = true)
  /\ option_map (fun r => file_name (snd r))
       match snd (SampleCallers.convert2DTo3D SampleHost.eight_images "Xyz"
                    UseConversion.photogrammetry SampleCallers.idle) with
       | inr out => out
       | inl _ => None
       end
     = Some "converted.xyz".
Proof.
  assert (H8 : 8 <= length SampleHost.eight_images) by (simpl; lia).
  assert (Himg : forallb (fun file => prefix "image/" (file_type file))
                   SampleHost.eight_images = true) by reflexivity.
  split; [split; assumption|].
  pose proof (converted_file_is_named_after_the_request
                SampleHost.Math_sin SampleHost.Math_cos SampleHost.toUpperCase
                SampleCallers.toLowerCase SampleHost.sample SampleHost.Scene
                SampleHost.createCubeScene
                (SampleHost.exportAs "model/gltf-binary")
                (SampleHost.exportAs "application/json")
                (SampleHost.exportAs "text/plain") (SampleHost.exportAs "model/stl")
                (SampleHost.exportAs "model/vnd.collada+xml")
                SampleCallers.createObjectURL
                SampleHost.eight_images "Xyz" SampleCallers.idle _ H8 Himg eq_refl) as T.
  cbv zeta in T. destruct T as (T & _).
  unfold SampleCallers.convert2DTo3D. rewrite T. reflexivity.
Defined.

Lemma export_failures_name_the_format_witness :
  snd (exportSceneToFormat SampleHost.Scene SampleCallers.brokenScene
         (SampleHost.exportAs "model/gltf-binary") (SampleHost.exportAs "application/json")
         (SampleHost.exportAs "text/plain") (SampleHost.exportAs "model/stl")
         (SampleHost.exportAs "model/vnd.collada+xml")
         (list nat) STL recording [])
  = inl (Error "Export to STL failed: WebGL is not available")
  /\ (exists cause : exn,
        Error "Export to STL failed: WebGL is not available"
        = Error ("Export to " ++ format_name STL ++ " failed: " ++ message_of cause)%string)
  /\ exportSceneToFormat SampleHost.Scene SampleHost.createCubeScene
       (SampleHost.exportAs "model/gltf-binary") (SampleHost.exportAs "application/json")
       (SampleHost.exportAs "text/plain") (SampleHost.exportAs "model/stl")
       (SampleHost.exportAs "model/vnd.collada+xml")
       (list nat) STL (throwing "boom") []
     = ([50], inl (Error "Export to STL failed: boom")).
Proof.
  assert (H : snd (exportSceneToFormat SampleHost.Scene SampleCallers.brokenScene
                     (SampleHost.exportAs "model/gltf-binary")
                     (SampleHost.exportAs "application/json")
                     (SampleHost.exportAs "text/plain") (SampleHost.exportAs "model/stl")
                     (SampleHost.exportAs "model/vnd.collada+xml")
                     (list nat) STL recording [])
              = inl (Error "Export to STL failed: WebGL is not available")) by reflexivity.
  split; [exact H|]. split; [|reflexivity].
  destruct (export_failures_name_the_format _ _ _ _ _ _ _ _ _ _ _ _ H) as (cause & E & _).
  exists cause. exact E.
Defined.

Lemma fbx_and_usdz_are_exported_as_glb_witness :
  snd (exportSceneToFormat SampleHost.Scene SampleHost.createCubeScene
         (SampleHost.exportAs "model/gltf-binary") (SampleHost.exportAs "application/json")
         (SampleHost.exportAs "text/plain") (SampleHost.exportAs "model/stl")
         (SampleHost.exportAs "model/vnd.collada+xml")
         (list nat) GLB recording [])
  = inr {| blob_bytes := encode "model/gltf-binary"; blob_type := "model/gltf-binary" |}
  /\ snd (exportSceneToFormat SampleHost.Scene SampleHost.createCubeScene
            (SampleHost.exportAs "model/gltf-binary") (SampleHost.exportAs "application/json")
            (SampleHost.exportAs "text/plain") (SampleHost.exportAs "model/stl")
            (SampleHost.exportAs "model/vnd.collada+xml")
            (list nat) FBX recording [])
     = inr {| blob_bytes := encode "model/gltf-binary"; blob_type := "model/gltf-binary" |}.
Proof.
  split; [reflexivity|].
  exact (proj1 (fbx_and_usdz_are_exported_as_glb SampleHost.Scene SampleHost.createCubeScene
                  (SampleHost.exportAs "model/gltf-binary")
                  (SampleHost.exportAs "application/json")
                  (SampleHost.exportAs "text/plain") (SampleHost.exportAs "model/stl")
                  (SampleHost.exportAs "model/vnd.collada+xml")
                  (list nat) recording [] _ eq_refl)).
Defined.

Lemma export_failure_is_not_rewrapped_witness :
  (8 <= length SampleHost.eight_images
   /\ forallb (fun file => prefix "image/" (file_type file)) SampleHost.eight_images = true)
  /\ snd (convertPhotogrammetry SampleHost.Math_sin SampleHost.Math_cos
            SampleHost.toUpperCase SampleHost.sample SampleHost.Scene
            SampleCallers.brokenScene
            (SampleHost.exportAs "model/gltf-binary") (SampleHost.exportAs "application/json")
            (SampleHost.exportAs "text/plain") (SampleHost.exportAs "model/stl")
            (SampleHost.exportAs "model/vnd.collada+xml")
            (list nat) SampleHost.eight_images "obj" recording [])
     = inl (Error "Export to OBJ failed: WebGL is not available").
Proof.
  assert (H8 : 8 <= length SampleHost.eight_images) by (simpl; lia).
  assert (Himg : forallb (fun file => prefix "image/" (file_type file))
                   SampleHost.eight_images = true) by reflexivity.
  split; [split; assumption|].
  pose proof (export_failure_is_not_rewrapped
                SampleHost.Math_sin SampleHost.Math_cos SampleHost.toUpperCase
                SampleHost.sample SampleHost.Scene SampleCallers.brokenScene
                (SampleHost.exportAs "model/gltf-binary")
                (SampleHost.exportAs "application/json")
                (SampleHost.exportAs "text/plain") (SampleHost.exportAs "model/stl")
                (SampleHost.exportAs "model/vnd.collada+xml")
                SampleHost.eight_images "obj" _ H8 Himg eq_refl) as T.
  cbv zeta in T. apply T.
Defined.

Lemma requested_format_decides_the_export_witness :
  (8 <= length SampleHost.eight_images
   /\ forallb (fun file => prefix "image/" (file_type file)) SampleHost.eight_images = true)
  /\ In 40 (fst (SampleHost.convert SampleHost.eight_images "stl"))
  /\ ~ In 40 (fst (SampleHost.convert SampleHost.eight_images "step")).
Proof.
  assert (H8 : 8 <= length SampleHost.eight_images) by (simpl; lia).
  assert (Himg : forallb (fun file => prefix "image/" (file_type file))
                   SampleHost.eight_images = true) by reflexivity.
  split; [split; assumption|].
  split.
  - pose proof (requested_format_decides_the_export
                  SampleHost.Math_sin SampleHost.Math_cos SampleHost.toUpperCase
                  SampleHost.sample SampleHost.Scene SampleHost.createCubeScene
                  (SampleHost.exportAs "model/gltf-binary")
                  (SampleHost.exportAs "application/json")
                  (SampleHost.exportAs "text/plain") (SampleHost.exportAs "model/stl")
                  (SampleHost.exportAs "model/vnd.collada+xml")
                  SampleHost.eight_images "stl" H8 Himg) as T.
    cbv zeta in T. apply (proj1 T STL). reflexivity.
  - pose proof (requested_format_decides_the_export
                  SampleHost.Math_sin SampleHost.Math_cos SampleHost.toUpperCase
                  SampleHost.sample SampleHost.Scene SampleHost.createCubeScene
                  (SampleHost.exportAs "model/gltf-binary")
                  (SampleHost.exportAs "application/json")
                  (SampleHost.exportAs "text/plain") (SampleHost.exportAs "model/stl")
                  (SampleHost.exportAs "model/vnd.collada+xml")
                  SampleHost.eight_images "step" H8 Himg) as T.
    cbv zeta in T. apply (proj2 T). intros format. destruct format; discriminate.
Defined.

Lemma validation_counts_before_it_looks_at_types_witness :
  snd (notify (list nat) recording 10 []) = inr tt
  /\ length [SampleCallers.model_file "a.glb"] < 8
  /\ snd (SampleHost.convert [SampleCallers.model_file "a.glb"] "glb")
     = inl (Error "Photogrammetry conversion failed: Please provide at least 8 images for photogrammetry")
  /\ 8 <= length (SampleCallers.model_file "a.glb" :: SampleHost.eight_images)
  /\ snd (SampleHost.convert (SampleCallers.model_file "a.glb" :: SampleHost.eight_images) "glb")
     = inl (Error "Photogrammetry conversion failed: All files must be valid image files").
Proof.
  assert (H0 : snd (notify (list nat) recording 10 []) = inr tt) by reflexivity.
  assert (H1 : length [SampleCallers.model_file "a.glb"] < 8) by (simpl; lia).
  assert (H9 : 8 <= length (SampleCallers.model_file "a.glb" :: SampleHost.eight_images))
    by (simpl; lia).
  pose proof (validation_counts_before_it_looks_at_types
                SampleHost.Math_sin SampleHost.Math_cos SampleHost.toUpperCase
                SampleHost.sample SampleHost.Scene SampleHost.createCubeScene
                (SampleHost.exportAs "model/gltf-binary")
                (SampleHost.exportAs "application/json")
                (SampleHost.exportAs "text/plain") (SampleHost.exportAs "model/stl")
                (SampleHost.exportAs "model/vnd.collada+xml")
                (list nat) [SampleCallers.model_file "a.glb"] "glb" recording []) as T1.
  pose proof (validation_counts_before_it_looks_at_types
                SampleHost.Math_sin SampleHost.Math_cos SampleHost.toUpperCase
                SampleHost.sample SampleHost.Scene SampleHost.createCubeScene
                (SampleHost.exportAs "model/gltf-binary")
                (SampleHost.exportAs "application/json")
                (SampleHost.exportAs "text/plain") (SampleHost.exportAs "model/stl")
                (SampleHost.exportAs "model/vnd.collada+xml")
                (list nat) (SampleCallers.model_file "a.glb" :: SampleHost.eight_images)
                "glb" recording []) as T9.
  cbv zeta in T1, T9.
  split; [exact H0|]. split; [exact H1|]. split.
  - unfold SampleHost.convert. rewrite (proj1 (T1 H0) H1). reflexivity.
  - split; [exact H9|]. unfold SampleHost.convert.
    rewrite (proj2 (T9 H0) H9
               (Exists_cons_hd (fun file => prefix "image/" (file_type file) = false)
                  (SampleCallers.model_file "a.glb") SampleHost.eight_images eq_refl)).
    reflexivity.
Defined.

(** ** The renderer *)

Lemma split_pop_dotless (s current : string) :
  Renderer.dotless s = true -> Renderer.split_pop s current = (current ++ s)%string.
Proof.
  revert current. induction s as [|c s IH]; intros current Hs.
  - simpl. clear Hs. induction current as [|a current IHc]; [reflexivity|].
    simpl. now rewrite <- IHc.
  - simpl in Hs |- *. apply andb_prop in Hs. destruct Hs as [Hc Hs].
    apply negb_true_iff in Hc. rewrite Hc, IH by exact Hs.
    clear. induction current as [|a current IHc]; [reflexivity|].
    simpl. now rewrite IHc.
Qed.

Lemma split_pop_after_dot (base rest current : string) :
  Renderer.split_pop (base ++ String "."%char rest) current
  = Renderer.split_pop rest EmptyString.
Proof.
  revert current. induction base as [|c base IH]; intros current.
  - reflexivity.
  - simpl. destruct (Ascii.eqb c "."%char); apply IH.
Qed.

(** X19. The extension [loadModel] looks at is the text after the last dot of
    the file name, and the whole name when it has no dot. *)
Theorem extension_is_the_text_after_the_last_dot (base extension : string) :
  Renderer.dotless extension = true ->
  Renderer.split_pop (base ++ "." ++ extension) EmptyString = extension
  /\ Renderer.split_pop extension EmptyString = extension.
Proof.
  intros Hdot. split.
  - change ("." ++ extension)%string with (String "."%char extension).
    rewrite split_pop_after_dot. now rewrite split_pop_dotless.
  - now rewrite split_pop_dotless.
Qed.

Lemma extension_is_the_text_after_the_last_dot_witness :
  Renderer.dotless "GLB" = true
  /\ Renderer.split_pop "scene.v2.GLB" EmptyString = "GLB"
  /\ Renderer.split_pop "GLB" EmptyString = "GLB".
Proof.
  split; [reflexivity|].
  exact (extension_is_the_text_after_the_last_dot "scene.v2" "GLB" eq_refl).
Defined.

(** X20. [loadModel] hands the file to a loader exactly for the extensions
    that [getSupportedFormats] lists, the GLTF loader for "gltf" and "glb";
    for every other extension it throws "Unsupported format: " followed by the
    lower-cased extension. *)
Theorem supported_formats_are_the_ones_loaded (toLowerCase : string -> string)
    (Object3D : Type)
    (GLTFLoader_scene FBXLoader_loadAsync OBJLoader_loadAsync : File -> exn + Object3D)
    (file : File) :
  let extension := toLowerCase (Renderer.split_pop (file_name file) EmptyString) in
  let loaded :=
    Renderer.loadModel toLowerCase Object3D GLTFLoader_scene FBXLoader_loadAsync
      OBJLoader_loadAsync file in
  (In extension Renderer.getSupportedFormats ->
     (extension = "gltf" \/ extension = "glb") /\ loaded = GLTFLoader_scene file
     \/ extension = "fbx" /\ loaded = FBXLoader_loadAsync file
     \/ extension = "obj" /\ loaded = OBJLoader_loadAsync file)
  /\ (~ In extension Renderer.getSupportedFormats ->
      loaded = inl (Error ("Unsupported format: " ++ extension)%string)).
Proof.
  cbv zeta. unfold Renderer.loadModel, Renderer.getSupportedFormats. cbv zeta.
  set (extension := toLowerCase _).
  destruct (String.eqb_spec extension "gltf") as [E1|N1];
    [split; [intros _; left; auto | intros H; exfalso; apply H; rewrite E1; simpl; auto]|].
  destruct (String.eqb_spec extension "glb") as [E2|N2];
    [split; [intros _; left; auto | intros H; exfalso; apply H; rewrite E2; simpl; auto]|].
  destruct (String.eqb_spec extension "fbx") as [E3|N3];
    [split; [intros _; right; left; auto | intros H; exfalso; apply H; rewrite E3; simpl; auto]|].
  destruct (String.eqb_spec extension "obj") as [E4|N4];
    [split; [intros _; right; right; auto | intros H; exfalso; apply H; rewrite E4; simpl; auto]|].
  split; [|reflexivity].
  intros [H|[H|[H|[H|[]]]]]; congruence.
Qed.

Lemma supported_formats_are_the_ones_loaded_witness :
  In (SampleCallers.toLowerCase (Renderer.split_pop "Chair.GLB" EmptyString))
     Renderer.getSupportedFormats
  /\ SampleCallers.loadModel (SampleCallers.model_file "Chair.GLB") = inr "gltf:Chair.GLB"
  /\ SampleCallers.loadModel (SampleCallers.model_file "chair.stl")
     = inl (Error "Unsupported format: stl").
Proof.
  assert (Hin : In (SampleCallers.toLowerCase (Renderer.split_pop "Chair.GLB" EmptyString))
                   Renderer.getSupportedFormats) by (simpl; auto).
  split; [exact Hin|]. split.
  - reflexivity.
  - pose proof (supported_formats_are_the_ones_loaded SampleCallers.toLowerCase string
                  (SampleCallers.loader "gltf") (SampleCallers.loader "fbx")
                  (SampleCallers.loader "obj") (SampleCallers.model_file "chair.stl")) as T.
    cbv zeta in T. apply (proj2 T).
    intros [H|[H|[H|[H|[]]]]]; discriminate H.
Defined.

(** X21. Every view of a sprite sheet is drawn inside the sheet and no two
    views share a cell: with a positive number of columns, the cell of view
    [i < angleCount] lies within [totalWidth] by [totalHeight], the grid has
    room for [angleCount] cells, and two views with the same corner are the
    same view. *)
Theorem sprite_cells_fit_the_sheet (angleCount cellSize gridCols i : nat) :
  0 < gridCols ->
  i < angleCount ->
  let dx := fst (Renderer.cell cellSize gridCols i) in
  let dy := snd (Renderer.cell cellSize gridCols i) in
  dx + cellSize <= Renderer.totalWidth cellSize gridCols
  /\ dy + cellSize <= Renderer.totalHeight angleCount cellSize gridCols
  /\ angleCount <= gridCols * Renderer.gridRows angleCount gridCols
  /\ (forall j : nat,
        0 < cellSize ->
        Renderer.cell cellSize gridCols j = Renderer.cell cellSize gridCols i ->
        j = i).
Proof.
  intros Hg Hi. cbv zeta.
  unfold Renderer.cell, Renderer.totalWidth, Renderer.totalHeight, Renderer.gridRows.
  cbn [fst snd].
  assert (Hcol : i mod gridCols < gridCols) by (apply Nat.mod_upper_bound; lia).
  assert (Hrows : (angleCount + gridCols - 1) / gridCols = (angleCount - 1) / gridCols + 1).
  { replace (angleCount + gridCols - 1) with (angleCount - 1 + 1 * gridCols) by lia.
    apply Nat.div_add. lia. }
  assert (Hrow : i / gridCols <= (angleCount - 1) / gridCols)
    by (apply Nat.Div0.div_le_mono; lia).
  rewrite Hrows.
  split; [nia|]. split; [nia|]. split.
  - pose proof (Nat.div_mod_eq (angleCount - 1) gridCols) as Hdm.
    assert ((angleCount - 1) mod gridCols < gridCols) by (apply Nat.mod_upper_bound; lia).
    nia.
  - intros j Hc E. injection E as Ex Ey.
    apply Nat.mul_cancel_r in Ex; [|lia]. apply Nat.mul_cancel_r in Ey; [|lia].
    rewrite (Nat.div_mod_eq j gridCols), (Nat.div_mod_eq i gridCols). now rewrite Ex, Ey.
Qed.

Lemma sprite_cells_fit_the_sheet_witness :
  0 < 4 /\ 13 < 16
  /\ fst (Renderer.cell 256 4 13) + 256 <= Renderer.totalWidth 256 4
  /\ snd (Renderer.cell 256 4 13) + 256 <= Renderer.totalHeight 16 256 4.
Proof.
  assert (Hg : 0 < 4) by lia. assert (Hi : 13 < 16) by lia.
  pose proof (sprite_cells_fit_the_sheet 16 256 4 13 Hg Hi) as T. cbv zeta in T.
  split; [exact Hg|]. split; [exact Hi|]. split; apply T.
Defined.
